(** * fusb30x_driver: attach (probe) and detach (remove) of the FUSB30x I2C driver

    A shallow embedding of [src/fusb30x_driver.c].  The two entry points
    [fusb30x_probe] and [fusb30x_remove] are straight-line C functions that
    call kernel services and the driver's platform helpers.  They are written
    here in a state-and-fault monad over a [World] that holds

    - the heap of [struct fusb30x_chip] objects and the device-managed
      allocation list they hang on ([devm_kzalloc]),
    - the global chip pointer behind [fusb30x_SetChip]/[fusb30x_GetChip],
    - the per-client driver data ([i2c_set_clientdata]/[i2c_get_clientdata]),
    - the ordered log of calls made, and the kernel message log.

    A C pointer that may be NULL is an [option]; [None] is NULL. *)

From Stdlib Require Import ZArith String List.
From stdpp Require Import gmap strings list fin_maps.

Local Open Scope string_scope.
Local Open Scope list_scope.

(** ** Kernel constants and objects *)

(** Error numbers of <linux/errno.h> (asm-generic/errno-base.h). *)
Module Errno.
Definition EIO : Z := 5.
Definition ENOMEM : Z := 12.
Definition EINVAL : Z := 22.
End Errno.
Import Errno.

(** [struct i2c_adapter]: only the functionality mask is read by the driver. *)
Record i2c_adapter : Type := {
  adapter_functionality : Z
}.

(** [struct i2c_client], as far as probe and remove look at it: the identity
    of the endpoint, the compatible strings of its device-tree node (empty
    when [dev.of_node] is NULL) and the adapter the device sits on.  The
    mutable [dev.driver_data] field lives in the [World], keyed by
    [client_addr]. *)
Record i2c_client : Type := {
  client_addr : N;
  client_of_compatible : list string;
  client_adapter : i2c_adapter
}.

(** [struct mutex] before and after [mutex_init]. *)
Inductive mutex : Type :=
| MutexZeroed
| MutexUnlocked.

(** [struct fusb30x_chip]: the two members written by the probe function
    itself.  The remaining data members belong to the platform helpers. *)
Record fusb30x_chip : Type := {
  chip_lock : mutex;
  chip_client : option N
}.

(** The result of kzalloc: all members zero. *)
Definition zeroed_chip : fusb30x_chip :=
  {| chip_lock := MutexZeroed; chip_client := None |}.

Inductive loglevel : Type :=
| KERN_ALERT
| KERN_ERR
| KERN_INFO
| KERN_DEBUG.

(** Every function that probe or remove calls as a statement or as a
    condition, by the name it has in the C source.  (Calls that only occur
    among the arguments of a log statement are reads and are not recorded.) *)
Inductive call : Type :=
| E_of_match_device
| E_i2c_check_functionality
| E_devm_kzalloc
| E_fusb30x_SetChip
| E_mutex_init
| E_fusb_InitChipData
| E_i2c_set_clientdata
| E_fusb_IsDeviceValid
| E_fusb_InitializeGPIO
| E_fusb_InitializeWorkers
| E_fusb_InitializeTimer
| E_fusb_Sysfs_Init
| E_fusb_InitializeCore
| E_fusb_ScheduleWork
| E_i2c_get_clientdata
| E_fusb_StopTimers
| E_fusb_StopThreads
| E_fusb_GPIO_Cleanup.

#[global] Instance call_eq_dec : EqDecision call.
Proof. solve_decision. Defined.

(** ** The world the driver runs in *)

Record World : Type := {
  heap : gmap positive fusb30x_chip;   (* live chip structures, by address *)
  devres : list (N * positive);        (* device-managed allocations, newest first *)
  g_chip : option positive;            (* the global chip pointer *)
  drvdata : gmap N positive;           (* client->dev.driver_data, absent = NULL *)
  calls : list call;                   (* calls made so far, oldest first *)
  dmesg : list (loglevel * string)     (* kernel log, oldest first *)
}.

(** What one run of probe is told by its collaborators. *)
Record Env : Type := {
  env_kzalloc_ok : bool;     (* devm_kzalloc returns a non-NULL pointer *)
  env_device_valid : bool;   (* the value of fusb_IsDeviceValid() *)
  env_gpio_ret : Z           (* the value of fusb_InitializeGPIO() *)
}.

(** The part of the world that attach can acquire or register. *)
Definition driver_state (w : World)
  : gmap positive fusb30x_chip * list (N * positive) * option positive * gmap N positive :=
  (heap w, devres w, g_chip w, drvdata w).

(** ** The monad: state passing, [None] is a memory fault (kernel oops) *)

Definition M (A : Type) : Type := World -> option (A * World).

Definition ret {A : Type} (a : A) : M A := fun w => Some (a, w).

Definition bind {A B : Type} (m : M A) (k : A -> M B) : M B :=
  fun w => match m w with
           | Some (a, w') => k a w'
           | None => None
           end.

Definition fault {A : Type} : M A := fun _ => None.

Declare Scope drv_scope.
Delimit Scope drv_scope with drv.
Notation "x <- m ;; k" := (bind m (fun x => k))
  (at level 20, m at level 99, k at level 200, only parsing) : drv_scope.
Notation "m ;; k" := (bind m (fun _ => k))
  (at level 100, k at level 200, only parsing, right associativity) : drv_scope.
Local Open Scope drv_scope.

Definition record_call (c : call) : M unit :=
  fun w => Some (tt, {| heap := heap w; devres := devres w; g_chip := g_chip w;
                        drvdata := drvdata w; calls := calls w ++ [c];
                        dmesg := dmesg w |}).

(** printk and the dev_info/dev_err wrappers: append the format string. *)
Definition printk (lvl : loglevel) (fmt : string) : M unit :=
  fun w => Some (tt, {| heap := heap w; devres := devres w; g_chip := g_chip w;
                        drvdata := drvdata w; calls := calls w;
                        dmesg := dmesg w ++ [(lvl, fmt)] |}).

Definition dev_info (dev : i2c_client) (fmt : string) : M unit := printk KERN_INFO fmt.
Definition dev_err (dev : i2c_client) (fmt : string) : M unit := printk KERN_ERR fmt.

(** ** Kernel services *)

(** of_match_device(matches, dev) != NULL: the node of the device carries a
    compatible string that is in the table. *)
Definition of_match_device (matches : list string) (dev : i2c_client) : M bool :=
  record_call E_of_match_device ;;
  ret (existsb (fun s => existsb (String.eqb s) matches) (client_of_compatible dev)).

Definition to_i2c_adapter (client : i2c_client) : i2c_adapter := client_adapter client.

Definition i2c_get_functionality (adap : i2c_adapter) : Z := adapter_functionality adap.

(** <linux/i2c.h>: [return (func & i2c_get_functionality(adap)) == func;] *)
Definition i2c_check_functionality (adap : i2c_adapter) (func : Z) : M bool :=
  record_call E_i2c_check_functionality ;;
  ret (Z.eqb (Z.land func (i2c_get_functionality adap)) func).

(** devm_kzalloc(dev, sizeof(struct fusb30x_chip), GFP_KERNEL): NULL, or a
    fresh zeroed chip that is entered in the managed allocations of [dev]. *)
Definition devm_kzalloc (env : Env) (dev : i2c_client) : M (option positive) :=
  record_call E_devm_kzalloc ;;
  if env_kzalloc_ok env then
    fun w =>
      let p := fresh (dom (heap w)) in
      Some (Some p, {| heap := <[p := zeroed_chip]> (heap w);
                       devres := (client_addr dev, p) :: devres w;
                       g_chip := g_chip w; drvdata := drvdata w;
                       calls := calls w; dmesg := dmesg w |})
  else ret None.

(** A store through a chip pointer: faults unless the pointer is live. *)
Definition store_chip (p : positive) (f : fusb30x_chip -> fusb30x_chip) : M unit :=
  fun w => match heap w !! p with
           | Some c =>
               Some (tt, {| heap := <[p := f c]> (heap w); devres := devres w;
                            g_chip := g_chip w; drvdata := drvdata w;
                            calls := calls w; dmesg := dmesg w |})
           | None => None
           end.

(** [chip->client = client;] *)
Definition chip_assign_client (chip : positive) (client : i2c_client) : M unit :=
  store_chip chip (fun c => {| chip_lock := chip_lock c;
                               chip_client := Some (client_addr client) |}).

(** [mutex_init(&chip->lock);] *)
Definition mutex_init (chip : positive) : M unit :=
  record_call E_mutex_init ;;
  store_chip chip (fun c => {| chip_lock := MutexUnlocked;
                               chip_client := chip_client c |}).

(** [i2c_set_clientdata(client, chip);] *)
Definition i2c_set_clientdata (client : i2c_client) (chip : positive) : M unit :=
  record_call E_i2c_set_clientdata ;;
  fun w => Some (tt, {| heap := heap w; devres := devres w; g_chip := g_chip w;
                        drvdata := <[client_addr client := chip]> (drvdata w);
                        calls := calls w; dmesg := dmesg w |}).

(** [i2c_get_clientdata(client)] reads [client->dev.driver_data]: a fault on
    a NULL client. *)
Definition i2c_get_clientdata (client : option i2c_client) : M (option positive) :=
  record_call E_i2c_get_clientdata ;;
  match client with
  | Some cl => fun w => Some (drvdata w !! client_addr cl, w)
  | None => fault
  end.

(** ** The driver's own collaborators (fusb30x_global, platform_helpers, core) *)

(** Modelled from the spec: fusb30x_SetChip and fusb30x_GetChip of
    fusb30x_global, which is not among the sources.  Attach "registers the
    new Chip State as the instance"; the probe function's comment reads "Set
    our global chip's address to the newly allocated memory". *)
Definition fusb30x_SetChip (chip : positive) : M unit :=
  record_call E_fusb30x_SetChip ;;
  fun w => Some (tt, {| heap := heap w; devres := devres w; g_chip := Some chip;
                        drvdata := drvdata w; calls := calls w; dmesg := dmesg w |}).

Definition fusb30x_GetChip : M (option positive) := fun w => Some (g_chip w, w).

(** Modelled from the spec: the helpers of platform_helpers and core, which
    are not among the sources.  Each one is a call whose order is recorded;
    the two that return a value take it from the environment.  What they do
    to the GPIO lines, timers, workers and the state machine is theirs; they
    are taken to leave alone what is modelled here (the chip heap, the managed
    allocations, the global chip pointer and the client data). *)
Definition fusb_InitChipData : M unit := record_call E_fusb_InitChipData.

Definition fusb_IsDeviceValid (env : Env) : M bool :=
  record_call E_fusb_IsDeviceValid ;; ret (env_device_valid env).

Definition fusb_InitializeGPIO (env : Env) : M Z :=
  record_call E_fusb_InitializeGPIO ;; ret (env_gpio_ret env).

Definition fusb_InitializeWorkers : M unit := record_call E_fusb_InitializeWorkers.
Definition fusb_InitializeTimer : M unit := record_call E_fusb_InitializeTimer.
Definition fusb_Sysfs_Init : M unit := record_call E_fusb_Sysfs_Init.
Definition fusb_InitializeCore : M unit := record_call E_fusb_InitializeCore.
Definition fusb_ScheduleWork : M unit := record_call E_fusb_ScheduleWork.

(** What one run of remove meets in its teardown helpers: whether the
    release of the timers, of the worker threads and of the GPIOs fails. *)
Record Teardown : Type := {
  td_timers_fail : bool;
  td_threads_fail : bool;
  td_gpio_fail : bool
}.

(** Modelled from the spec: the three teardown helpers of platform_helpers,
    which are not among the sources.  They are called as statements, so they
    hand nothing back to remove; "underlying resource-release failures are
    logged, not propagated": a helper whose release fails writes a message at
    error level and returns.  The text of the message is not fixed by the
    spec; only its level is read below. *)
Definition release_step (c : call) (fails : bool) (fmt : string) : M unit :=
  record_call c ;;
  if fails then printk KERN_ERR fmt else ret tt.

Definition fusb_StopTimers (t : Teardown) : M unit :=
  release_step E_fusb_StopTimers (td_timers_fail t) "FUSB  %s - Error: timer release failed".
Definition fusb_StopThreads (t : Teardown) : M unit :=
  release_step E_fusb_StopThreads (td_threads_fail t) "FUSB  %s - Error: worker release failed".
Definition fusb_GPIO_Cleanup (t : Teardown) : M unit :=
  release_step E_fusb_GPIO_Cleanup (td_gpio_fail t) "FUSB  %s - Error: GPIO release failed".

(** The number of releases that fail in a teardown. *)
Definition failed_releases (t : Teardown) : nat :=
  Nat.b2n (td_timers_fail t) + Nat.b2n (td_threads_fail t) + Nat.b2n (td_gpio_fail t).

(** ** Reading the call log *)

(** The causes for which attach can fail. *)
Inductive attach_failure : Type :=
| NullHandle
| DtMismatch
| CapabilityMissing
| AllocationFailure
| IdentityFailure
| GpioFailure.

#[global] Instance attach_failure_eq_dec : EqDecision attach_failure.
Proof. solve_decision. Defined.

(** The lifecycle steps of the attach and detach sequences. *)
Inductive lifecycle_step : Type :=
| ValidateCompatibility
| ValidateBusCapability
| AllocateChipState
| InitLock
| InitChipData
| VerifyIdentity
| InitGPIO
| InitWorkers
| InitTimers
| InitControlSurface
| InitStateMachine
| StartWorkers
| StopTimers
| StopWorkers
| ReleaseGPIO.

(** The lifecycle step a call carries out; registering the chip pointer and
    reading or writing the client data are not steps of their own. *)
Definition step_of_call (c : call) : option lifecycle_step :=
  match c with
  | E_of_match_device => Some ValidateCompatibility
  | E_i2c_check_functionality => Some ValidateBusCapability
  | E_devm_kzalloc => Some AllocateChipState
  | E_mutex_init => Some InitLock
  | E_fusb_InitChipData => Some InitChipData
  | E_fusb_IsDeviceValid => Some VerifyIdentity
  | E_fusb_InitializeGPIO => Some InitGPIO
  | E_fusb_InitializeWorkers => Some InitWorkers
  | E_fusb_InitializeTimer => Some InitTimers
  | E_fusb_Sysfs_Init => Some InitControlSurface
  | E_fusb_InitializeCore => Some InitStateMachine
  | E_fusb_ScheduleWork => Some StartWorkers
  | E_fusb_StopTimers => Some StopTimers
  | E_fusb_StopThreads => Some StopWorkers
  | E_fusb_GPIO_Cleanup => Some ReleaseGPIO
  | E_fusb30x_SetChip | E_i2c_set_clientdata | E_i2c_get_clientdata => None
  end.

Definition steps_of (tr : list call) : list lifecycle_step := omap step_of_call tr.

(** The calls that undo an acquisition. *)
Definition is_release (c : call) : bool :=
  match c with
  | E_fusb_StopTimers | E_fusb_StopThreads | E_fusb_GPIO_Cleanup => true
  | _ => false
  end.

(** Position of the first occurrence of a call in a log. *)
Fixpoint call_index (c : call) (tr : list call) : option nat :=
  match tr with
  | [] => None
  | c' :: tr' => if decide (c = c') then Some O else S <$> call_index c tr'
  end.

(** Both calls occur and the first occurrence of [a] is before that of [b]. *)
Definition called_before (a b : call) (tr : list call) : bool :=
  match call_index a tr, call_index b tr with
  | Some i, Some j => Nat.ltb i j
  | _, _ => false
  end.

(** The calls of an attach in which every check passes. *)
Definition probe_success_calls : list call :=
  [E_of_match_device; E_i2c_check_functionality; E_devm_kzalloc;
   E_fusb30x_SetChip; E_mutex_init; E_fusb_InitChipData;
   E_i2c_set_clientdata; E_fusb_IsDeviceValid; E_fusb_InitializeGPIO;
   E_fusb_InitializeWorkers; E_fusb_InitializeTimer; E_fusb_Sysfs_Init;
   E_fusb_InitializeCore; E_fusb_ScheduleWork].

(** How many of them have been made when attach fails for a given cause. *)
Definition calls_made (cause : attach_failure) : nat :=
  match cause with
  | NullHandle => 0
  | DtMismatch => 1
  | CapabilityMissing => 2
  | AllocationFailure => 3
  | IdentityFailure => 8
  | GpioFailure => 9
  end.

(** The calls of a detach. *)
Definition remove_calls : list call :=
  [E_i2c_get_clientdata; E_fusb_StopTimers; E_fusb_StopThreads; E_fusb_GPIO_Cleanup].

(** ** The driver functions *)

(** [static int fusb30x_remove(struct i2c_client* client)].  The local
    [chip] is assigned and not used again.  [t] is what the three teardown
    helpers meet in this run; remove itself never sees it. *)
Definition fusb30x_remove (t : Teardown) (client : option i2c_client) : M Z :=
  printk KERN_DEBUG "FUSB  %s - Removing fusb30x device!" ;;
  chip <- i2c_get_clientdata client ;;
  fusb_StopTimers t ;;
  fusb_StopThreads t ;;
  fusb_GPIO_Cleanup t ;;
  printk KERN_DEBUG "FUSB  %s - FUSB30x device removed from driver..." ;;
  ret 0%Z.

Section Driver.

(** From fusb30x_driver.h, which is not among the sources: the mask of
    required I2C/SMBus functionality and the device-tree match table. *)
Variable FUSB30X_I2C_SMBUS_REQUIRED_FUNC : Z.
Variable fusb30x_dt_match : list string.

(** [static int fusb30x_probe(struct i2c_client* client,
                              const struct i2c_device_id* id)] *)
Definition fusb30x_probe (env : Env) (client : option i2c_client) : M Z :=
  match client with
  | None =>
      printk KERN_ALERT "FUSB  %s - Error: Client structure is NULL!" ;;
      ret (- EINVAL)%Z
  | Some client =>
      dev_info client "%s" ;;
      (* Make sure probe was called on a compatible device *)
      matched <- of_match_device fusb30x_dt_match client ;;
      if negb matched then
        dev_err client "FUSB  %s - Error: Device tree mismatch!" ;;
        ret (- EINVAL)%Z
      else
      printk KERN_DEBUG "FUSB  %s - Device tree matched!" ;;
      (* Verify that the system has our required I2C/SMBUS functionality *)
      let adapter := to_i2c_adapter client in
      supported <- i2c_check_functionality adapter FUSB30X_I2C_SMBUS_REQUIRED_FUNC ;;
      if negb supported then
        dev_err client "FUSB  %s - Error: Required I2C/SMBus functionality not supported! Driver required func. mask: 0x%x" ;;
        dev_err client "FUSB  %s - I2C Supported Functionality Mask: 0x%x" ;;
        ret (- EIO)%Z
      else
      printk KERN_DEBUG "FUSB  %s - I2C Functionality check passed!" ;;
      (* Allocate space for our chip structure *)
      chip <- devm_kzalloc env client ;;
      match chip with
      | None =>
          dev_err client "FUSB  %s - Error: Unable to allocate memory for g_chip!" ;;
          ret (- ENOMEM)%Z
      | Some chip =>
          (* Assign our client handle to our chip *)
          chip_assign_client chip client ;;
          (* Set our global chip's address to the newly allocated memory *)
          fusb30x_SetChip chip ;;
          _ <- fusb30x_GetChip ;;
          printk KERN_DEBUG "FUSB  %s - Chip structure is set! Chip: %p ... g_chip: %p" ;;
          (* Initialize the chip lock *)
          mutex_init chip ;;
          (* Initialize the chip's data members *)
          fusb_InitChipData ;;
          printk KERN_DEBUG "FUSB  %s - Chip struct data initialized!" ;;
          (* Assign our struct as the client's driverdata *)
          i2c_set_clientdata client chip ;;
          printk KERN_DEBUG "FUSB  %s - I2C client data set!" ;;
          (* Verify that our device exists and that it's what we expect *)
          valid <- fusb_IsDeviceValid env ;;
          if negb valid then
            dev_err client "FUSB  %s - Error: Unable to communicate with device!" ;;
            ret (- EIO)%Z
          else
          printk KERN_DEBUG "FUSB  %s - Device check passed!" ;;
          (* Initialize the platform's GPIO pins *)
          r <- fusb_InitializeGPIO env ;;
          if negb (r =? 0)%Z then
            dev_err client "FUSB  %s - Error: Unable to initialize GPIO!" ;;
            ret r
          else
          printk KERN_DEBUG "FUSB  %s - GPIO initialized!" ;;
          (* Init our workers, but don't start them yet *)
          fusb_InitializeWorkers ;;
          printk KERN_DEBUG "FUSB  %s - Workers initialized!" ;;
          (* Initialize our timer *)
          fusb_InitializeTimer ;;
          printk KERN_DEBUG "FUSB  %s - Timers initialized!" ;;
          (* Initialize sysfs file accessors *)
          fusb_Sysfs_Init ;;
          printk KERN_DEBUG "FUSB  %s - Sysfs device file created!" ;;
          (* Initialize the core and enable the state machine *)
          fusb_InitializeCore ;;
          printk KERN_DEBUG "FUSB  %s - Core is initialized!" ;;
          (* Start worker threads after successful initialization *)
          fusb_ScheduleWork ;;
          dev_info client "FUSB  %s - FUSB30X Driver loaded successfully!" ;;
          ret r
      end
  end.

(** The step at which an attach attempt fails: the first check, in the order
    the probe function makes them, that does not pass. *)
Definition first_failure (env : Env) (client : option i2c_client)
  : option attach_failure :=
  match client with
  | None => Some NullHandle
  | Some cl =>
      if negb (existsb (fun s => existsb (String.eqb s) fusb30x_dt_match)
                       (client_of_compatible cl))
      then Some DtMismatch
      else if negb (Z.land FUSB30X_I2C_SMBUS_REQUIRED_FUNC
                           (adapter_functionality (client_adapter cl))
                    =? FUSB30X_I2C_SMBUS_REQUIRED_FUNC)%Z
      then Some CapabilityMissing
      else if negb (env_kzalloc_ok env) then Some AllocationFailure
      else if negb (env_device_valid env) then Some IdentityFailure
      else if negb (env_gpio_ret env =? 0)%Z then Some GpioFailure
      else None
  end.


End Driver.

(** ** Sample data *)

(** A boot-time world: nothing allocated, nothing registered. *)
Definition world0 : World :=
  {| heap := ∅; devres := []; g_chip := None; drvdata := ∅; calls := []; dmesg := [] |}.

(** A match table with the FUSB302 compatible string and a required mask of
    SMBus byte-data and I2C-block transfers (bits of <linux/i2c.h>). *)
Definition sample_dt_match : list string := ["fairchild,fusb302"].
Definition sample_required_func : Z := 0x0C180000.

Definition full_adapter : i2c_adapter := {| adapter_functionality := 0x0EFF0009 |}.
Definition byte_only_adapter : i2c_adapter := {| adapter_functionality := 0x00060000 |}.

Definition fusb302_client : i2c_client :=
  {| client_addr := 0x22; client_of_compatible := ["fairchild,fusb302"];
     client_adapter := full_adapter |}.
Definition foreign_client : i2c_client :=
  {| client_addr := 0x50; client_of_compatible := ["atmel,24c02"];
     client_adapter := full_adapter |}.
Definition starved_client : i2c_client :=
  {| client_addr := 0x22; client_of_compatible := ["fairchild,fusb302"];
     client_adapter := byte_only_adapter |}.

Definition env_ok : Env :=
  {| env_kzalloc_ok := true; env_device_valid := true; env_gpio_ret := 0 |}.
Definition env_no_memory : Env :=
  {| env_kzalloc_ok := false; env_device_valid := true; env_gpio_ret := 0 |}.
Definition env_silent_chip : Env :=
  {| env_kzalloc_ok := true; env_device_valid := false; env_gpio_ret := 0 |}.
Definition env_gpio_busy : Env :=
  {| env_kzalloc_ok := true; env_device_valid := true; env_gpio_ret := (-16) |}.

Definition teardown_clean : Teardown :=
  {| td_timers_fail := false; td_threads_fail := false; td_gpio_fail := false |}.
Definition teardown_gpio_stuck : Teardown :=
  {| td_timers_fail := false; td_threads_fail := false; td_gpio_fail := true |}.

Definition sample_probe : Env -> option i2c_client -> M Z :=
  fusb30x_probe sample_required_func sample_dt_match.

(** The world after one successful attach of the FUSB302 client in [world0]. *)
Definition world_attached : World :=
  {| heap := {[ 1%positive := {| chip_lock := MutexUnlocked; chip_client := Some 0x22%N |} ]};
     devres := [(0x22%N, 1%positive)];
     g_chip := Some 1%positive;
     drvdata := {[ 0x22%N := 1%positive ]};
     calls := probe_success_calls;
     dmesg :=
       [(KERN_INFO, "%s");
        (KERN_DEBUG, "FUSB  %s - Device tree matched!");
        (KERN_DEBUG, "FUSB  %s - I2C Functionality check passed!");
        (KERN_DEBUG, "FUSB  %s - Chip structure is set! Chip: %p ... g_chip: %p");
        (KERN_DEBUG, "FUSB  %s - Chip struct data initialized!");
        (KERN_DEBUG, "FUSB  %s - I2C client data set!");
        (KERN_DEBUG, "FUSB  %s - Device check passed!");
        (KERN_DEBUG, "FUSB  %s - GPIO initialized!");
        (KERN_DEBUG, "FUSB  %s - Workers initialized!");
        (KERN_DEBUG, "FUSB  %s - Timers initialized!");
        (KERN_DEBUG, "FUSB  %s - Sysfs device file created!");
        (KERN_DEBUG, "FUSB  %s - Core is initialized!");
        (KERN_INFO, "FUSB  %s - FUSB30X Driver loaded successfully!")] |}.

(** The world after an attach of the FUSB302 client in [world0] in which
    fusb_InitializeGPIO returns -EBUSY. *)
Definition world_gpio_failed : World :=
  {| heap := {[ 1%positive := {| chip_lock := MutexUnlocked; chip_client := Some 0x22%N |} ]};
     devres := [(0x22%N, 1%positive)];
     g_chip := Some 1%positive;
     drvdata := {[ 0x22%N := 1%positive ]};
     calls := take 9 probe_success_calls;
     dmesg :=
       [(KERN_INFO, "%s");
        (KERN_DEBUG, "FUSB  %s - Device tree matched!");
        (KERN_DEBUG, "FUSB  %s - I2C Functionality check passed!");
        (KERN_DEBUG, "FUSB  %s - Chip structure is set! Chip: %p ... g_chip: %p");
        (KERN_DEBUG, "FUSB  %s - Chip struct data initialized!");
        (KERN_DEBUG, "FUSB  %s - I2C client data set!");
        (KERN_DEBUG, "FUSB  %s - Device check passed!");
        (KERN_ERR, "FUSB  %s - Error: Unable to initialize GPIO!")] |}.

(** The registrations a chip structure is left with once probe has run up to
    [i2c_set_clientdata]: allocated for the client, lock initialised, back
    pointer set, named by the global chip pointer and by the client data. *)
Definition registered_state (cl : i2c_client) (w : World)
  : gmap positive fusb30x_chip * list (N * positive) * option positive * gmap N positive :=
  let p := fresh (dom (heap w)) in
  (<[p := {| chip_lock := MutexUnlocked; chip_client := Some (client_addr cl) |}]> (heap w),
   (client_addr cl, p) :: devres w,
   Some p,
   <[client_addr cl := p]> (drvdata w)).

(** The value probe returns when it fails for a given cause. *)
Definition failure_code (env : Env) (cause : attach_failure) : Z :=
  match cause with
  | NullHandle => - EINVAL
  | DtMismatch => - EINVAL
  | CapabilityMissing => - EIO
  | AllocationFailure => - ENOMEM
  | IdentityFailure => - EIO
  | GpioFailure => env_gpio_ret env
  end.

(** The failures that happen before a chip structure exists. *)
Definition before_registration (cause : attach_failure) : bool :=
  match cause with
  | NullHandle | DtMismatch | CapabilityMissing | AllocationFailure => true
  | IdentityFailure | GpioFailure => false
  end.

(** ** Vocabulary for the further properties *)

(** The two validations of probe, as conditions on the client. *)
Definition dt_matched (matches : list string) (cl : i2c_client) : bool :=
  existsb (fun s => existsb (String.eqb s) matches) (client_of_compatible cl).

Definition bus_capable (func : Z) (cl : i2c_client) : bool :=
  (Z.land func (adapter_functionality (client_adapter cl)) =? func)%Z.

(** Log levels at which probe reports an error. *)
Definition is_error_level (lvl : loglevel) : bool :=
  match lvl with
  | KERN_ALERT | KERN_ERR => true
  | KERN_INFO | KERN_DEBUG => false
  end.

(** The platform and core helpers, which take no argument and reach the chip
    through the global chip pointer. *)
Definition is_platform_helper (c : call) : bool :=
  match c with
  | E_fusb_InitChipData | E_fusb_IsDeviceValid | E_fusb_InitializeGPIO
  | E_fusb_InitializeWorkers | E_fusb_InitializeTimer | E_fusb_Sysfs_Init
  | E_fusb_InitializeCore | E_fusb_ScheduleWork
  | E_fusb_StopTimers | E_fusb_StopThreads | E_fusb_GPIO_Cleanup => true
  | _ => false
  end.

(** The initialisation call that a teardown call of remove undoes. *)
Definition undoes (c : call) : option call :=
  match c with
  | E_fusb_StopTimers => Some E_fusb_InitializeTimer
  | E_fusb_StopThreads => Some E_fusb_InitializeWorkers
  | E_fusb_GPIO_Cleanup => Some E_fusb_InitializeGPIO
  | _ => None
  end.

(** The initialisation calls of probe that remove has a teardown call for. *)
Definition has_teardown (c : call) : bool :=
  match c with
  | E_fusb_InitializeTimer | E_fusb_InitializeWorkers | E_fusb_InitializeGPIO => true
  | _ => false
  end.

(** The registrations agree with the heap: the global chip pointer and every
    client's driver data name a live chip structure with an initialised
    lock, the driver data of a client names a structure that points back to
    that client, every managed allocation is live and owned by the client it
    points back to, nothing live is unmanaged or managed twice, and the
    global chip pointer names the newest allocation. *)
Record registry_consistent (w : World) : Prop := {
  rc_global : forall p, g_chip w = Some p ->
    exists c, heap w !! p = Some c /\ chip_lock c = MutexUnlocked;
  rc_drvdata : forall a p, drvdata w !! a = Some p ->
    exists c, heap w !! p = Some c /\ chip_client c = Some a /\
              chip_lock c = MutexUnlocked;
  rc_devres_live : forall a p, (a, p) ∈ devres w ->
    exists c, heap w !! p = Some c /\ chip_client c = Some a;
  rc_heap_managed : forall p c, heap w !! p = Some c ->
    exists a, (a, p) ∈ devres w;
  rc_devres_nodup : NoDup (devres w).*2;
  rc_newest : g_chip w = snd <$> head (devres w)
}.

(** A second FUSB302 on the same adapter. *)
Definition second_fusb302_client : i2c_client :=
  {| client_addr := 0x23; client_of_compatible := ["fairchild,fusb302"];
     client_adapter := full_adapter |}.

(** A world whose registrations name a structure that is no longer live. *)
Definition world_dangling : World :=
  {| heap := ∅; devres := []; g_chip := Some 7%positive;
     drvdata := {[ 0x22%N := 7%positive ]}; calls := []; dmesg := [] |}.

(** * Properties *)

(** ** Symbolic execution of probe and remove *)

Ltac unfold_driver :=
  unfold fusb30x_probe, fusb30x_remove, of_match_device, i2c_check_functionality,
    devm_kzalloc, fusb_IsDeviceValid, fusb_InitializeGPIO, chip_assign_client,
    mutex_init, store_chip, i2c_get_clientdata, bind, ret, fault,
    to_i2c_adapter, i2c_get_functionality.

Lemma fresh_chip_free (w : World) : heap w !! fresh (dom (heap w)) = None.
Proof. apply not_elem_of_dom, is_fresh. Qed.

Section Attach.

Variable func : Z.
Variable matches : list string.

(** What a run of probe returns and leaves behind, by the first check that
    fails (or by none failing). *)
Lemma probe_run (env : Env) (client : option i2c_client) (w : World) :
  exists r w',
    fusb30x_probe func matches env client w = Some (r, w') /\
    match first_failure func matches env client with
    | Some cause =>
        r = failure_code env cause /\ r <> 0%Z /\
        calls w' = calls w ++ take (calls_made cause) probe_success_calls /\
        (if before_registration cause
         then driver_state w' = driver_state w
         else exists cl, client = Some cl /\ driver_state w' = registered_state cl w)
    | None =>
        r = 0%Z /\
        calls w' = calls w ++ probe_success_calls /\
        exists cl, client = Some cl /\ driver_state w' = registered_state cl w
    end.
Proof.
  destruct client as [cl|]; unfold first_failure.
  2:{ unfold_driver; simpl. do 2 eexists. split; [reflexivity|].
      simpl. rewrite app_nil_r. repeat split; discriminate. }
  destruct (existsb _ (client_of_compatible cl)) eqn:Hdt; simpl.
  2:{ unfold_driver; simpl. rewrite Hdt; simpl. do 2 eexists.
      split; [reflexivity|]. simpl. repeat split; discriminate. }
  destruct (Z.land func _ =? func)%Z eqn:Hfn; simpl.
  2:{ unfold_driver; simpl. rewrite Hdt; simpl. rewrite Hfn; simpl.
      do 2 eexists. split; [reflexivity|]. simpl.
      rewrite <- !app_assoc. repeat split; discriminate. }
  destruct (env_kzalloc_ok env) eqn:Hal; simpl.
  2:{ unfold_driver; simpl. rewrite Hdt; simpl. rewrite Hfn; simpl.
      rewrite Hal; simpl. do 2 eexists. split; [reflexivity|]. simpl.
      rewrite <- !app_assoc. repeat split; discriminate. }
  destruct (env_device_valid env) eqn:Hid; simpl.
  2:{ unfold_driver; simpl. rewrite Hdt; simpl. rewrite Hfn; simpl.
      rewrite Hal; simpl. rewrite !lookup_insert_eq; simpl.
      rewrite !lookup_insert_eq; simpl. rewrite Hid; simpl.
      do 2 eexists. split; [reflexivity|]. simpl.
      rewrite <- !app_assoc. repeat split; try discriminate.
      exists cl. split; [reflexivity|].
      unfold driver_state, registered_state; simpl.
      rewrite !insert_insert_eq. reflexivity. }
  destruct (env_gpio_ret env =? 0)%Z eqn:Hgp; simpl.
  2:{ unfold_driver; simpl. rewrite Hdt; simpl. rewrite Hfn; simpl.
      rewrite Hal; simpl. rewrite !lookup_insert_eq; simpl.
      rewrite !lookup_insert_eq; simpl. rewrite Hid; simpl. rewrite Hgp; simpl.
      do 2 eexists. split; [reflexivity|]. simpl.
      rewrite <- !app_assoc. repeat split.
      - apply Z.eqb_neq. exact Hgp.
      - exists cl. split; [reflexivity|].
        unfold driver_state, registered_state; simpl.
        rewrite !insert_insert_eq. reflexivity. }
  unfold_driver; simpl. rewrite Hdt; simpl. rewrite Hfn; simpl.
  rewrite Hal; simpl. rewrite !lookup_insert_eq; simpl.
  rewrite !lookup_insert_eq; simpl. rewrite Hid; simpl. rewrite Hgp; simpl.
  do 2 eexists. split; [reflexivity|]. simpl.
  rewrite <- !app_assoc. repeat split.
  - apply Z.eqb_eq. exact Hgp.
  - exists cl. split; [reflexivity|].
    unfold driver_state, registered_state; simpl.
    rewrite !insert_insert_eq. reflexivity.
Qed.

(** Probe never faults: every store it makes goes through the pointer it
    has just obtained from the allocator and checked against NULL. *)
Lemma probe_total (env : Env) (client : option i2c_client) (w : World) :
  is_Some (fusb30x_probe func matches env client w).
Proof.
  destruct (probe_run env client w) as (r & w' & Hrun & _).
  rewrite Hrun. eexists; reflexivity.
Qed.

(** Probe succeeds exactly when no check fails. *)
Lemma probe_zero_iff (env : Env) (client : option i2c_client) (w w' : World) (r : Z) :
  fusb30x_probe func matches env client w = Some (r, w') ->
  (r = 0%Z <-> first_failure func matches env client = None).
Proof.
  intros Hp. destruct (probe_run env client w) as (r0 & w0 & Hrun & Hout).
  rewrite Hrun in Hp. injection Hp as -> ->.
  destruct (first_failure func matches env client) as [cause|].
  - destruct Hout as (_ & Hnz & _). split; [intros ?; contradiction | discriminate].
  - destruct Hout as (-> & _). split; reflexivity.
Qed.

Lemma registered_state_fields (cl : i2c_client) (w w' : World) :
  driver_state w' = registered_state cl w ->
  let p := fresh (dom (heap w)) in
  heap w' = <[p := {| chip_lock := MutexUnlocked;
                      chip_client := Some (client_addr cl) |}]> (heap w) /\
  devres w' = (client_addr cl, p) :: devres w /\
  g_chip w' = Some p /\
  drvdata w' = <[client_addr cl := p]> (drvdata w).
Proof.
  unfold driver_state, registered_state. intros H. simpl.
  injection H as -> -> -> ->. repeat split.
Qed.

Lemma take_success_calls_no_release (n : nat) :
  forallb (fun c => negb (is_release c)) (take n probe_success_calls) = true.
Proof.
  do 15 (destruct n as [|n]; [reflexivity|]). reflexivity.
Qed.

(** ** Attach: failure paths *)

(** C1, as amended.  An attach that fails (returns a non-zero value) stops at
    the failing step: the calls it has made are an initial segment of the
    calls of a successful attach, and none of them is a release.  If the
    failure is a null handle, a device-tree mismatch, a missing bus
    capability or an allocation failure, the heap, the managed allocations,
    the global chip pointer and the client data are as before the call.  If
    the identity check or the GPIO initialisation fails, the chip structure
    allocated by this attempt is still a managed allocation of the client
    when probe returns. *)
Theorem probe_failure_aborts_without_unwinding
    (env : Env) (client : option i2c_client) (w w' : World) (r : Z) :
  fusb30x_probe func matches env client w = Some (r, w') ->
  r <> 0%Z ->
  exists cause tr,
    first_failure func matches env client = Some cause /\
    calls w' = calls w ++ tr /\
    tr = take (calls_made cause) probe_success_calls /\
    forallb (fun c => negb (is_release c)) tr = true /\
    (before_registration cause = true -> driver_state w' = driver_state w) /\
    (before_registration cause = false ->
     exists cl, client = Some cl /\
       heap w !! fresh (dom (heap w)) = None /\
       is_Some (heap w' !! fresh (dom (heap w))) /\
       devres w' = (client_addr cl, fresh (dom (heap w))) :: devres w).
Proof.
  intros Hp Hr. destruct (probe_run env client w) as (r0 & w0 & Hrun & Hout).
  rewrite Hrun in Hp. injection Hp as -> ->.
  destruct (first_failure func matches env client) as [cause|].
  2:{ destruct Hout as (-> & _). contradiction. }
  destruct Hout as (_ & _ & Hcalls & Hstate).
  exists cause, (take (calls_made cause) probe_success_calls).
  split; [reflexivity|]. split; [exact Hcalls|]. split; [reflexivity|].
  split; [apply take_success_calls_no_release|].
  destruct (before_registration cause); split; intros Hb; try discriminate.
  - exact Hstate.
  - destruct Hstate as (cl & -> & Hst). exists cl.
    apply registered_state_fields in Hst. simpl in Hst.
    destruct Hst as (Hh & Hd & _ & _).
    split; [reflexivity|]. split; [apply fresh_chip_free|].
    split; [|exact Hd]. rewrite Hh, lookup_insert_eq. eexists; reflexivity.
Qed.

(** C9.  An attach that fails on a null client, on a device-tree mismatch or
    on missing I2C/SMBus functionality returns a non-zero value and leaves
    the heap (and so every chip lock), the managed allocations, the global
    chip pointer and the client data exactly as they were. *)
Theorem probe_early_failure_changes_nothing
    (env : Env) (client : option i2c_client) (w : World) (cause : attach_failure) :
  first_failure func matches env client = Some cause ->
  cause = NullHandle \/ cause = DtMismatch \/ cause = CapabilityMissing ->
  exists r w',
    fusb30x_probe func matches env client w = Some (r, w') /\
    r <> 0%Z /\
    heap w' = heap w /\ devres w' = devres w /\
    g_chip w' = g_chip w /\ drvdata w' = drvdata w.
Proof.
  intros Hf Hc. destruct (probe_run env client w) as (r & w' & Hrun & Hout).
  rewrite Hf in Hout. destruct Hout as (_ & Hnz & _ & Hstate).
  exists r, w'. split; [exact Hrun|]. split; [exact Hnz|].
  assert (Hb : before_registration cause = true)
    by (destruct Hc as [->|[->| ->]]; reflexivity).
  rewrite Hb in Hstate. unfold driver_state in Hstate.
  injection Hstate as -> -> -> ->. repeat split.
Qed.

(** C7, as amended.  The value attach returns is fixed by the cause of the
    failure: -EINVAL for a null handle and for a device-tree mismatch alike,
    -EIO for a bus without the required functionality and for a failed
    identity check alike, -ENOMEM for an allocation failure (and whatever
    fusb_InitializeGPIO returned for a GPIO failure).  The three errno values
    are pairwise different. *)
Theorem probe_error_code_by_cause
    (env : Env) (client : option i2c_client) (w : World) (cause : attach_failure) :
  first_failure func matches env client = Some cause ->
  exists w',
    fusb30x_probe func matches env client w
    = Some (match cause with
            | NullHandle | DtMismatch => - EINVAL
            | CapabilityMissing | IdentityFailure => - EIO
            | AllocationFailure => - ENOMEM
            | GpioFailure => env_gpio_ret env
            end%Z, w') /\
    (- EINVAL <> - EIO)%Z /\ (- EINVAL <> - ENOMEM)%Z /\ (- EIO <> - ENOMEM)%Z.
Proof.
  intros Hf. destruct (probe_run env client w) as (r & w' & Hrun & Hout).
  rewrite Hf in Hout. destruct Hout as (-> & _).
  exists w'. split.
  - rewrite Hrun. destruct cause; reflexivity.
  - repeat split; discriminate.
Qed.

(** C8, as amended.  When the chip fails the identity check, attach returns
    -EIO right after the check, having made no call of a later step and no
    release: the chip structure allocated by the attempt is one more managed
    allocation of the client than before the call, and it is live. *)
Theorem probe_identity_failure
    (env : Env) (cl : i2c_client) (w : World) :
  first_failure func matches env (Some cl) = Some IdentityFailure ->
  exists w',
    fusb30x_probe func matches env (Some cl) w = Some ((- EIO)%Z, w') /\
    calls w' = calls w ++
      [E_of_match_device; E_i2c_check_functionality; E_devm_kzalloc;
       E_fusb30x_SetChip; E_mutex_init; E_fusb_InitChipData;
       E_i2c_set_clientdata; E_fusb_IsDeviceValid] /\
    heap w !! fresh (dom (heap w)) = None /\
    is_Some (heap w' !! fresh (dom (heap w))) /\
    devres w' = (client_addr cl, fresh (dom (heap w))) :: devres w.
Proof.
  intros Hf. destruct (probe_run env (Some cl) w) as (r & w' & Hrun & Hout).
  rewrite Hf in Hout. destruct Hout as (-> & _ & Hcalls & cl' & Hcl & Hst).
  injection Hcl as <-. apply registered_state_fields in Hst. simpl in Hst.
  destruct Hst as (Hh & Hd & _ & _).
  exists w'. split; [exact Hrun|]. split; [exact Hcalls|].
  split; [apply fresh_chip_free|]. split; [|exact Hd].
  rewrite Hh, lookup_insert_eq. eexists; reflexivity.
Qed.

(** ** Attach: the successful path *)

(** C2, as amended.  Probe has no re-probe guard.  For a client that already
    has a chip structure registered as its driver data, a further attach in
    which every check passes returns 0: it allocates a second chip structure
    for the same client and re-points the global chip pointer and the client
    data to it.  The first chip structure is not modified and stays among the
    managed allocations of the client. *)
Theorem probe_has_no_reprobe_guard
    (env : Env) (cl : i2c_client) (w : World) (p0 : positive) (c0 : fusb30x_chip) :
  first_failure func matches env (Some cl) = None ->
  drvdata w !! client_addr cl = Some p0 ->
  heap w !! p0 = Some c0 ->
  (client_addr cl, p0) ∈ devres w ->
  exists w' p,
    fusb30x_probe func matches env (Some cl) w = Some (0%Z, w') /\
    p <> p0 /\
    g_chip w' = Some p /\
    drvdata w' !! client_addr cl = Some p /\
    is_Some (heap w' !! p) /\
    heap w' !! p0 = Some c0 /\
    (client_addr cl, p) ∈ devres w' /\ (client_addr cl, p0) ∈ devres w'.
Proof.
  intros Hf Hd0 Hh0 Hr0.
  destruct (probe_run env (Some cl) w) as (r & w' & Hrun & Hout).
  rewrite Hf in Hout. destruct Hout as (-> & _ & cl' & Hcl & Hst).
  injection Hcl as <-. apply registered_state_fields in Hst. simpl in Hst.
  destruct Hst as (Hh & Hd & Hg & Hdd).
  assert (Hne : fresh (dom (heap w)) <> p0).
  { intros Heq. pose proof (fresh_chip_free w) as Hfree.
    rewrite Heq, Hh0 in Hfree. discriminate. }
  exists w', (fresh (dom (heap w))).
  split; [exact Hrun|]. split; [exact Hne|]. split; [exact Hg|].
  split; [rewrite Hdd; apply lookup_insert_eq|].
  split; [rewrite Hh, lookup_insert_eq; eexists; reflexivity|].
  split; [rewrite Hh, lookup_insert_ne by exact Hne; exact Hh0|].
  rewrite Hd. split; [left | right; exact Hr0].
Qed.

(** C3.  A successful attach (one that returns 0) makes its calls in exactly
    the order of [probe_success_calls]; read as lifecycle steps these are the
    twelve steps of the attach sequence in order, and the call that starts
    the workers is the last one and occurs nowhere before. *)
Theorem probe_success_order
    (env : Env) (client : option i2c_client) (w w' : World) :
  fusb30x_probe func matches env client w = Some (0%Z, w') ->
  exists tr,
    calls w' = calls w ++ tr /\
    tr = [E_of_match_device; E_i2c_check_functionality; E_devm_kzalloc;
          E_fusb30x_SetChip; E_mutex_init; E_fusb_InitChipData;
          E_i2c_set_clientdata; E_fusb_IsDeviceValid; E_fusb_InitializeGPIO;
          E_fusb_InitializeWorkers; E_fusb_InitializeTimer; E_fusb_Sysfs_Init;
          E_fusb_InitializeCore; E_fusb_ScheduleWork] /\
    steps_of tr =
      [ValidateCompatibility; ValidateBusCapability; AllocateChipState;
       InitLock; InitChipData; VerifyIdentity; InitGPIO; InitWorkers;
       InitTimers; InitControlSurface; InitStateMachine; StartWorkers] /\
    call_index E_fusb_ScheduleWork tr = Some (Nat.pred (length tr)).
Proof.
  intros Hp. pose proof (probe_zero_iff env client w w' 0%Z Hp) as [Hz _].
  specialize (Hz eq_refl).
  destruct (probe_run env client w) as (r & w0 & Hrun & Hout).
  rewrite Hrun in Hp. injection Hp as -> ->.
  rewrite Hz in Hout. destruct Hout as (_ & Hcalls & _).
  exists probe_success_calls. split; [exact Hcalls|].
  split; [reflexivity|]. split; reflexivity.
Qed.

(** The workers are started by no attach that fails. *)
Lemma probe_failure_never_starts_workers
    (env : Env) (client : option i2c_client) (w w' : World) (r : Z) :
  fusb30x_probe func matches env client w = Some (r, w') ->
  r <> 0%Z ->
  call_index E_fusb_ScheduleWork (drop (length (calls w)) (calls w')) = None.
Proof.
  intros Hp Hr. destruct (probe_run env client w) as (r0 & w0 & Hrun & Hout).
  rewrite Hrun in Hp. injection Hp as -> ->.
  destruct (first_failure func matches env client) as [cause|].
  - destruct Hout as (_ & _ & -> & _). rewrite drop_app_length.
    destruct cause; reflexivity.
  - destruct Hout as (-> & _). contradiction.
Qed.

End Attach.

(** ** Detach *)

(** What a run of remove on a client returns and leaves behind, whatever
    happens inside the teardown helpers. *)
Lemma remove_run (t : Teardown) (cl : i2c_client) (w : World) :
  exists w',
    fusb30x_remove t (Some cl) w = Some (0%Z, w') /\
    calls w' = calls w ++ remove_calls /\
    driver_state w' = driver_state w.
Proof.
  destruct t as [[] [] []];
    unfold_driver; unfold fusb_StopTimers, fusb_StopThreads, fusb_GPIO_Cleanup,
      release_step, bind, ret; simpl;
    (eexists; split; [reflexivity|]; simpl;
     rewrite <- !app_assoc; split; reflexivity).
Qed.

(** What a run of remove writes to the kernel log: its two own messages,
    with one error message in between for each release that fails. *)
Lemma remove_log_run (t : Teardown) (cl : i2c_client) (w : World) :
  exists r w' msgs,
    fusb30x_remove t (Some cl) w = Some (r, w') /\
    dmesg w' = dmesg w ++ msgs /\
    length (List.filter (fun m => is_error_level (fst m)) msgs) = failed_releases t /\
    head msgs = Some (KERN_DEBUG, "FUSB  %s - Removing fusb30x device!") /\
    last msgs = Some (KERN_DEBUG, "FUSB  %s - FUSB30x device removed from driver...").
Proof.
  destruct t as [[] [] []];
    unfold_driver; unfold fusb_StopTimers, fusb_StopThreads, fusb_GPIO_Cleanup,
      release_step, bind, ret; simpl;
    (do 3 eexists; split; [reflexivity|]; simpl;
     rewrite <- !app_assoc; split; [reflexivity|]; repeat split; reflexivity).
Qed.

(** The only way remove can go wrong is a NULL client, which it reads
    without a check; the I2C core always passes the bound client. *)
Lemma remove_null_client_faults (t : Teardown) (w : World) :
  fusb30x_remove t None w = None.
Proof. reflexivity. Qed.

(** C4.  Every detach makes its teardown calls in this order: it stops the
    timers, then stops the worker threads, then releases the GPIOs. *)
Theorem remove_teardown_order (t : Teardown) (cl : i2c_client) (w : World) :
  exists w' tr,
    fusb30x_remove t (Some cl) w = Some (0%Z, w') /\
    calls w' = calls w ++ tr /\
    tr = [E_i2c_get_clientdata; E_fusb_StopTimers; E_fusb_StopThreads;
          E_fusb_GPIO_Cleanup] /\
    steps_of tr = [StopTimers; StopWorkers; ReleaseGPIO] /\
    called_before E_fusb_StopTimers E_fusb_StopThreads tr = true.
Proof.
  destruct (remove_run t cl w) as (w' & Hrun & Hcalls & _).
  exists w', remove_calls. repeat split; assumption.
Qed.

(** C6.  Detach succeeds unconditionally.  Whatever the client, the world
    and the outcome of the three releases, remove returns 0 and carries the
    whole teardown out: a release that fails stops neither the later
    teardown calls nor the final message.  Each failed release leaves one
    message at error level in the kernel log, between the two messages of
    remove itself, and that is all the caller can learn of it. *)
Theorem remove_always_returns_success (t : Teardown) (cl : i2c_client) (w : World) :
  exists w' msgs,
    fusb30x_remove t (Some cl) w = Some (0%Z, w') /\
    calls w' = calls w ++
      [E_i2c_get_clientdata; E_fusb_StopTimers; E_fusb_StopThreads;
       E_fusb_GPIO_Cleanup] /\
    dmesg w' = dmesg w ++ msgs /\
    length (List.filter (fun m => is_error_level (fst m)) msgs) = failed_releases t /\
    head msgs = Some (KERN_DEBUG, "FUSB  %s - Removing fusb30x device!") /\
    last msgs = Some (KERN_DEBUG, "FUSB  %s - FUSB30x device removed from driver...").
Proof.
  destruct (remove_run t cl w) as (w' & Hrun & Hcalls & _).
  destruct (remove_log_run t cl w) as (r & w0 & msgs & Hrun' & Hd & He & Hh & Hl).
  rewrite Hrun in Hrun'. injection Hrun' as <- <-.
  exists w', msgs. split; [exact Hrun|]. split; [exact Hcalls|].
  split; [exact Hd|]. split; [exact He|]. split; [exact Hh | exact Hl].
Qed.

(** C10.  Remove does nothing with the chip pointer it reads from the client
    data.  For any two clients in any two worlds (no driver data, driver
    data naming a live chip structure, or driver data naming an address that
    is not live) remove does not fault, returns 0, makes the same calls, and
    leaves the heap, the managed allocations, the global chip pointer and the
    client data untouched. *)
Theorem remove_ignores_chip_state
    (t1 t2 : Teardown) (c1 c2 : i2c_client) (w1 w2 : World) :
  exists w1' w2',
    fusb30x_remove t1 (Some c1) w1 = Some (0%Z, w1') /\
    fusb30x_remove t2 (Some c2) w2 = Some (0%Z, w2') /\
    drop (length (calls w1)) (calls w1') = drop (length (calls w2)) (calls w2') /\
    driver_state w1' = driver_state w1 /\
    driver_state w2' = driver_state w2.
Proof.
  destruct (remove_run t1 c1 w1) as (w1' & Hrun1 & Hcalls1 & Hst1).
  destruct (remove_run t2 c2 w2) as (w2' & Hrun2 & Hcalls2 & Hst2).
  exists w1', w2'. repeat split; try assumption.
  rewrite Hcalls1, Hcalls2, !drop_app_length. reflexivity.
Qed.

(** ** The properties at concrete inputs *)

(** The sample worlds are what probe produces. *)
Lemma sample_probe_attached :
  sample_probe env_ok (Some fusb302_client) world0 = Some (0%Z, world_attached).
Proof. vm_compute. reflexivity. Qed.

Lemma sample_probe_gpio_failed :
  sample_probe env_gpio_busy (Some fusb302_client) world0
  = Some ((-16)%Z, world_gpio_failed).
Proof. vm_compute. reflexivity. Qed.

(** C1 fails as stated: the attach of the FUSB302 client in which the GPIO
    initialisation fails returns -EBUSY and makes no release call, and
    afterwards the global chip pointer, the client data, the initialised
    lock and the managed allocation are all still there, where before the
    call there was nothing. *)
Lemma probe_gpio_failure_leaves_registration :
  exists w',
    fusb30x_probe sample_required_func sample_dt_match env_gpio_busy
      (Some fusb302_client) world0 = Some ((-16)%Z, w') /\
    (g_chip world0 = None /\ g_chip w' = Some 1%positive) /\
    (drvdata world0 !! 0x22%N = None /\ drvdata w' !! 0x22%N = Some 1%positive) /\
    (heap world0 !! 1%positive = None /\
     heap w' !! 1%positive
     = Some {| chip_lock := MutexUnlocked; chip_client := Some 0x22%N |}) /\
    (devres world0 = [] /\ devres w' = [(0x22%N, 1%positive)]) /\
    existsb is_release (calls w') = false /\
    driver_state w' <> driver_state world0.
Proof.
  exists world_gpio_failed.
  split; [vm_compute; reflexivity|].
  split; [split; reflexivity|].
  split; [split; vm_compute; reflexivity|].
  split; [split; vm_compute; reflexivity|].
  split; [split; reflexivity|].
  split; [reflexivity|].
  unfold driver_state. intros H. injection H as _ _ Hg _. discriminate Hg.
Qed.

Lemma probe_failure_aborts_without_unwinding_witness :
  fusb30x_probe sample_required_func sample_dt_match env_gpio_busy
    (Some fusb302_client) world0 = Some ((-16)%Z, world_gpio_failed) /\
  (-16)%Z <> 0%Z /\
  exists cause tr,
    first_failure sample_required_func sample_dt_match env_gpio_busy
      (Some fusb302_client) = Some cause /\
    calls world_gpio_failed = calls world0 ++ tr /\
    tr = take (calls_made cause) probe_success_calls /\
    forallb (fun c => negb (is_release c)) tr = true /\
    (before_registration cause = true ->
     driver_state world_gpio_failed = driver_state world0) /\
    (before_registration cause = false ->
     exists cl, Some fusb302_client = Some cl /\
       heap world0 !! fresh (dom (heap world0)) = None /\
       is_Some (heap world_gpio_failed !! fresh (dom (heap world0))) /\
       devres world_gpio_failed
       = (client_addr cl, fresh (dom (heap world0))) :: devres world0).
Proof.
  assert (Hrun : fusb30x_probe sample_required_func sample_dt_match env_gpio_busy
                   (Some fusb302_client) world0 = Some ((-16)%Z, world_gpio_failed))
    by (vm_compute; reflexivity).
  assert (Hnz : (-16)%Z <> 0%Z) by discriminate.
  split; [exact Hrun|]. split; [exact Hnz|].
  exact (probe_failure_aborts_without_unwinding sample_required_func sample_dt_match
           env_gpio_busy (Some fusb302_client) world0 world_gpio_failed (-16)%Z
           Hrun Hnz).
Defined.

(** C2 fails as stated: a second attach of the FUSB302 client, already
    attached in [world_attached], is not refused.  It returns 0, a second
    chip structure exists for the same client, and the global chip pointer
    and the client data have moved from the first structure to the second. *)
Lemma second_probe_is_not_refused :
  (g_chip world_attached = Some 1%positive /\
   drvdata world_attached !! 0x22%N = Some 1%positive /\
   devres world_attached = [(0x22%N, 1%positive)]) /\
  exists w',
    fusb30x_probe sample_required_func sample_dt_match env_ok
      (Some fusb302_client) world_attached = Some (0%Z, w') /\
    g_chip w' = Some 2%positive /\
    drvdata w' !! 0x22%N = Some 2%positive /\
    devres w' = [(0x22%N, 2%positive); (0x22%N, 1%positive)] /\
    size (heap w') = 2.
Proof.
  split; [repeat split; vm_compute; reflexivity|].
  destruct (fusb30x_probe sample_required_func sample_dt_match env_ok
              (Some fusb302_client) world_attached) as [[r w']|] eqn:Hrun;
    [|vm_compute in Hrun; discriminate Hrun].
  vm_compute in Hrun. injection Hrun as <- <-.
  eexists. split; [reflexivity|].
  repeat split; vm_compute; reflexivity.
Qed.

Lemma probe_has_no_reprobe_guard_witness :
  first_failure sample_required_func sample_dt_match env_ok (Some fusb302_client) = None /\
  drvdata world_attached !! client_addr fusb302_client = Some 1%positive /\
  heap world_attached !! 1%positive
  = Some {| chip_lock := MutexUnlocked; chip_client := Some 0x22%N |} /\
  (client_addr fusb302_client, 1%positive) ∈ devres world_attached /\
  exists w' p,
    fusb30x_probe sample_required_func sample_dt_match env_ok
      (Some fusb302_client) world_attached = Some (0%Z, w') /\
    p <> 1%positive /\
    g_chip w' = Some p /\
    drvdata w' !! client_addr fusb302_client = Some p /\
    is_Some (heap w' !! p) /\
    heap w' !! 1%positive
    = Some {| chip_lock := MutexUnlocked; chip_client := Some 0x22%N |} /\
    (client_addr fusb302_client, p) ∈ devres w' /\
    (client_addr fusb302_client, 1%positive) ∈ devres w'.
Proof.
  assert (Hf : first_failure sample_required_func sample_dt_match env_ok
                 (Some fusb302_client) = None) by (vm_compute; reflexivity).
  assert (Hd : drvdata world_attached !! client_addr fusb302_client = Some 1%positive)
    by (vm_compute; reflexivity).
  assert (Hh : heap world_attached !! 1%positive
               = Some {| chip_lock := MutexUnlocked; chip_client := Some 0x22%N |})
    by (vm_compute; reflexivity).
  assert (Hr : (client_addr fusb302_client, 1%positive) ∈ devres world_attached)
    by (simpl; left).
  split; [exact Hf|]. split; [exact Hd|]. split; [exact Hh|]. split; [exact Hr|].
  exact (probe_has_no_reprobe_guard sample_required_func sample_dt_match env_ok
           fusb302_client world_attached 1%positive _ Hf Hd Hh Hr).
Defined.

Lemma probe_success_order_witness :
  fusb30x_probe sample_required_func sample_dt_match env_ok
    (Some fusb302_client) world0 = Some (0%Z, world_attached) /\
  exists tr,
    calls world_attached = calls world0 ++ tr /\
    tr = [E_of_match_device; E_i2c_check_functionality; E_devm_kzalloc;
          E_fusb30x_SetChip; E_mutex_init; E_fusb_InitChipData;
          E_i2c_set_clientdata; E_fusb_IsDeviceValid; E_fusb_InitializeGPIO;
          E_fusb_InitializeWorkers; E_fusb_InitializeTimer; E_fusb_Sysfs_Init;
          E_fusb_InitializeCore; E_fusb_ScheduleWork] /\
    steps_of tr =
      [ValidateCompatibility; ValidateBusCapability; AllocateChipState;
       InitLock; InitChipData; VerifyIdentity; InitGPIO; InitWorkers;
       InitTimers; InitControlSurface; InitStateMachine; StartWorkers] /\
    call_index E_fusb_ScheduleWork tr = Some (Nat.pred (length tr)).
Proof.
  assert (Hrun : fusb30x_probe sample_required_func sample_dt_match env_ok
                   (Some fusb302_client) world0 = Some (0%Z, world_attached))
    by (vm_compute; reflexivity).
  split; [exact Hrun|].
  exact (probe_success_order sample_required_func sample_dt_match env_ok
           (Some fusb302_client) world0 world_attached Hrun).
Defined.

(** Remove on a client without driver data, and on a client whose driver
    data names an address where no chip structure lives. *)
Example remove_without_driver_data :
  drvdata world0 !! client_addr fusb302_client = None /\
  fst <$> fusb30x_remove teardown_clean (Some fusb302_client) world0 = Some 0%Z.
Proof. split; vm_compute; reflexivity. Qed.

Example remove_with_dangling_driver_data :
  let w := {| heap := ∅; devres := []; g_chip := Some 7%positive;
              drvdata := {[ 0x22%N := 7%positive ]}; calls := []; dmesg := [] |} in
  drvdata w !! client_addr fusb302_client = Some 7%positive /\
  heap w !! 7%positive = None /\
  fst <$> fusb30x_remove teardown_gpio_stuck (Some fusb302_client) w = Some 0%Z.
Proof. repeat split; vm_compute; reflexivity. Qed.

(** C7 fails as stated: a null handle and a device-tree mismatch give the
    caller the same value, and so do a bus without the required
    functionality and a chip that fails the identity check. *)
Lemma probe_error_codes_collide :
  (first_failure sample_required_func sample_dt_match env_ok None = Some NullHandle /\
   first_failure sample_required_func sample_dt_match env_ok (Some foreign_client)
   = Some DtMismatch /\
   fst <$> fusb30x_probe sample_required_func sample_dt_match env_ok None world0
   = Some (-22)%Z /\
   fst <$> fusb30x_probe sample_required_func sample_dt_match env_ok
             (Some foreign_client) world0
   = Some (-22)%Z) /\
  (first_failure sample_required_func sample_dt_match env_ok (Some starved_client)
   = Some CapabilityMissing /\
   first_failure sample_required_func sample_dt_match env_silent_chip
     (Some fusb302_client)
   = Some IdentityFailure /\
   fst <$> fusb30x_probe sample_required_func sample_dt_match env_ok
             (Some starved_client) world0
   = Some (-5)%Z /\
   fst <$> fusb30x_probe sample_required_func sample_dt_match env_silent_chip
             (Some fusb302_client) world0
   = Some (-5)%Z).
Proof.
  repeat split; vm_compute; reflexivity.
Qed.

Lemma probe_error_code_by_cause_witness :
  first_failure sample_required_func sample_dt_match env_no_memory
    (Some fusb302_client) = Some AllocationFailure /\
  exists w',
    fusb30x_probe sample_required_func sample_dt_match env_no_memory
      (Some fusb302_client) world0
    = Some ((- ENOMEM)%Z, w') /\
    (- EINVAL <> - EIO)%Z /\ (- EINVAL <> - ENOMEM)%Z /\ (- EIO <> - ENOMEM)%Z.
Proof.
  assert (Hf : first_failure sample_required_func sample_dt_match env_no_memory
                 (Some fusb302_client) = Some AllocationFailure)
    by (vm_compute; reflexivity).
  split; [exact Hf|].
  exact (probe_error_code_by_cause sample_required_func sample_dt_match
           env_no_memory (Some fusb302_client) world0 AllocationFailure Hf).
Defined.

(** C8 fails as stated: when the FUSB302 chip fails the identity check,
    attach returns -EIO, but the chip structure it allocated is still
    allocated afterwards (one managed allocation where there was none), and
    the global chip pointer and the client data still name it. *)
Lemma probe_identity_failure_keeps_allocation :
  exists w',
    fusb30x_probe sample_required_func sample_dt_match env_silent_chip
      (Some fusb302_client) world0 = Some ((-5)%Z, w') /\
    (length (devres world0) = 0%nat /\ size (heap world0) = 0%nat) /\
    (length (devres w') = 1%nat /\ size (heap w') = 1%nat) /\
    devres w' = [(0x22%N, 1%positive)] /\
    heap w' !! 1%positive
    = Some {| chip_lock := MutexUnlocked; chip_client := Some 0x22%N |} /\
    g_chip w' = Some 1%positive /\
    drvdata w' !! 0x22%N = Some 1%positive.
Proof.
  eexists. split; [vm_compute; reflexivity|].
  repeat split; vm_compute; reflexivity.
Qed.

Lemma probe_identity_failure_witness :
  first_failure sample_required_func sample_dt_match env_silent_chip
    (Some fusb302_client) = Some IdentityFailure /\
  exists w',
    fusb30x_probe sample_required_func sample_dt_match env_silent_chip
      (Some fusb302_client) world_attached = Some ((- EIO)%Z, w') /\
    calls w' = calls world_attached ++
      [E_of_match_device; E_i2c_check_functionality; E_devm_kzalloc;
       E_fusb30x_SetChip; E_mutex_init; E_fusb_InitChipData;
       E_i2c_set_clientdata; E_fusb_IsDeviceValid] /\
    heap world_attached !! fresh (dom (heap world_attached)) = None /\
    is_Some (heap w' !! fresh (dom (heap world_attached))) /\
    devres w' = (client_addr fusb302_client, fresh (dom (heap world_attached)))
                :: devres world_attached.
Proof.
  assert (Hf : first_failure sample_required_func sample_dt_match env_silent_chip
                 (Some fusb302_client) = Some IdentityFailure)
    by (vm_compute; reflexivity).
  split; [exact Hf|].
  exact (probe_identity_failure sample_required_func sample_dt_match
           env_silent_chip fusb302_client world_attached Hf).
Defined.

Lemma probe_early_failure_changes_nothing_witness :
  first_failure sample_required_func sample_dt_match env_ok (Some starved_client)
  = Some CapabilityMissing /\
  (CapabilityMissing = NullHandle \/ CapabilityMissing = DtMismatch \/
   CapabilityMissing = CapabilityMissing) /\
  exists r w',
    fusb30x_probe sample_required_func sample_dt_match env_ok
      (Some starved_client) world_attached = Some (r, w') /\
    r <> 0%Z /\
    heap w' = heap world_attached /\ devres w' = devres world_attached /\
    g_chip w' = g_chip world_attached /\ drvdata w' = drvdata world_attached.
Proof.
  assert (Hf : first_failure sample_required_func sample_dt_match env_ok
                 (Some starved_client) = Some CapabilityMissing)
    by (vm_compute; reflexivity).
  assert (Hc : CapabilityMissing = NullHandle \/ CapabilityMissing = DtMismatch \/
               CapabilityMissing = CapabilityMissing)
    by (right; right; reflexivity).
  split; [exact Hf|]. split; [exact Hc|].
  exact (probe_early_failure_changes_nothing sample_required_func sample_dt_match
           env_ok (Some starved_client) world_attached CapabilityMissing Hf Hc).
Defined.

(** * Further properties of probe and remove *)

Section AttachFurther.

Variable func : Z.
Variable matches : list string.

Lemma driver_state_fields (w w' : World) :
  driver_state w' = driver_state w ->
  heap w' = heap w /\ devres w' = devres w /\
  g_chip w' = g_chip w /\ drvdata w' = drvdata w.
Proof.
  unfold driver_state. intros H. injection H as -> -> -> ->. repeat split.
Qed.

(** No check fails exactly when the client is there and all five pass. *)
Lemma first_failure_none_iff (env : Env) (client : option i2c_client) :
  first_failure func matches env client = None <->
  exists cl, client = Some cl /\
    dt_matched matches cl = true /\ bus_capable func cl = true /\
    env_kzalloc_ok env = true /\ env_device_valid env = true /\
    env_gpio_ret env = 0%Z.
Proof.
  unfold first_failure, dt_matched, bus_capable. split.
  - destruct client as [cl|]; [|discriminate].
    destruct (existsb _ (client_of_compatible cl)) eqn:Hdt; simpl; [|discriminate].
    destruct (Z.land func _ =? func)%Z eqn:Hfn; simpl; [|discriminate].
    destruct (env_kzalloc_ok env) eqn:Hal; simpl; [|discriminate].
    destruct (env_device_valid env) eqn:Hid; simpl; [|discriminate].
    destruct (env_gpio_ret env =? 0)%Z eqn:Hg; simpl; [|discriminate].
    intros _. exists cl. apply Z.eqb_eq in Hg.
    repeat split; assumption.
  - intros (cl & -> & -> & -> & -> & -> & ->). reflexivity.
Qed.

(** A run of probe either leaves the registrations alone (and fails) or
    leaves the fresh chip structure registered. *)
Lemma probe_state_cases
    (env : Env) (client : option i2c_client) (w w' : World) (r : Z) :
  fusb30x_probe func matches env client w = Some (r, w') ->
  (r <> 0%Z /\ driver_state w' = driver_state w) \/
  (exists cl, client = Some cl /\ driver_state w' = registered_state cl w).
Proof.
  intros Hp. destruct (probe_run func matches env client w) as (r0 & w0 & Hrun & Hout).
  rewrite Hrun in Hp. injection Hp as -> ->.
  destruct (first_failure func matches env client) as [cause|].
  - destruct Hout as (_ & Hnz & _ & Hst).
    destruct (before_registration cause); [left; split; assumption | right; exact Hst].
  - destruct Hout as (_ & _ & Hst). right. exact Hst.
Qed.

(** X1.  Probe cannot fault, whatever the world looks like: the only
    pointers it stores through are the client it has checked against NULL
    and the chip structure it has just obtained and checked, so stale or
    dangling registrations left by earlier calls are never followed. *)
Theorem probe_never_faults (env : Env) (client : option i2c_client) (w : World) :
  exists r w', fusb30x_probe func matches env client w = Some (r, w').
Proof.
  destruct (probe_run func matches env client w) as (r & w' & Hrun & _).
  exists r, w'. exact Hrun.
Qed.

(** X2.  Probe returns 0 exactly when the client is not NULL, its node
    matches the table, the adapter has the required functionality, the
    allocation succeeds, the device answers the identity check, and
    fusb_InitializeGPIO returns 0. *)
Theorem probe_succeeds_iff_all_checks_pass
    (env : Env) (client : option i2c_client) (w w' : World) (r : Z) :
  fusb30x_probe func matches env client w = Some (r, w') ->
  (r = 0%Z <->
   exists cl, client = Some cl /\
     dt_matched matches cl = true /\ bus_capable func cl = true /\
     env_kzalloc_ok env = true /\ env_device_valid env = true /\
     env_gpio_ret env = 0%Z).
Proof.
  intros Hp. rewrite <- first_failure_none_iff.
  destruct (probe_run func matches env client w) as (r0 & w0 & Hrun & Hout).
  rewrite Hrun in Hp. injection Hp as -> ->.
  destruct (first_failure func matches env client) as [cause|].
  - destruct Hout as (_ & Hnz & _). split; [intros ?; contradiction | discriminate].
  - destruct Hout as (-> & _). split; reflexivity.
Qed.

(** X3.  Probe returns 0, -EINVAL, -EIO, -ENOMEM, or the non-zero value of
    fusb_InitializeGPIO passed on unchanged.  So its result is positive only
    if fusb_InitializeGPIO returned a positive value. *)
Theorem probe_return_values
    (env : Env) (client : option i2c_client) (w w' : World) (r : Z) :
  fusb30x_probe func matches env client w = Some (r, w') ->
  (r = 0 \/ r = - EINVAL \/ r = - EIO \/ r = - ENOMEM \/
   (r = env_gpio_ret env /\ r <> 0))%Z /\
  ((env_gpio_ret env <= 0)%Z -> (r <= 0)%Z).
Proof.
  intros Hp. destruct (probe_run func matches env client w) as (r0 & w0 & Hrun & Hout).
  rewrite Hrun in Hp. injection Hp as -> ->.
  destruct (first_failure func matches env client) as [cause|].
  - destruct Hout as (-> & Hnz & _).
    destruct cause; simpl in *; (split; [tauto | intros Hle; try exact Hle; discriminate]).
  - destruct Hout as (-> & _). split; [left; reflexivity | intros _; discriminate].
Qed.

(** X4.  After a successful probe the chip structure of the client is fully
    set up: it sits at an address that was free before, its lock is
    initialised and it points back to the client; the global chip pointer
    and the client's driver data both name it; and it is the newest managed
    allocation of the client. *)
Theorem probe_success_registers_chip
    (env : Env) (client : option i2c_client) (w w' : World) :
  fusb30x_probe func matches env client w = Some (0%Z, w') ->
  exists cl p,
    client = Some cl /\
    heap w !! p = None /\
    heap w' !! p = Some {| chip_lock := MutexUnlocked;
                           chip_client := Some (client_addr cl) |} /\
    g_chip w' = Some p /\
    drvdata w' !! client_addr cl = Some p /\
    devres w' = (client_addr cl, p) :: devres w.
Proof.
  intros Hp. destruct (probe_state_cases env client w w' 0%Z Hp)
    as [[Hnz _] | (cl & -> & Hst)]; [contradiction|].
  apply registered_state_fields in Hst. simpl in Hst.
  destruct Hst as (Hh & Hd & Hg & Hdd).
  exists cl, (fresh (dom (heap w))).
  split; [reflexivity|]. split; [apply fresh_chip_free|].
  split; [rewrite Hh; apply lookup_insert_eq|].
  split; [exact Hg|]. split; [rewrite Hdd; apply lookup_insert_eq | exact Hd].
Qed.

(** X5.  Whatever its outcome, probe leaves every chip structure that was
    live before as it was, leaves the driver data of every other client as
    it was, and adds at most one managed allocation, at the head of the
    list, together with exactly that one new chip structure. *)
Theorem probe_frame
    (env : Env) (client : option i2c_client) (w w' : World) (r : Z) :
  fusb30x_probe func matches env client w = Some (r, w') ->
  (forall q c, heap w !! q = Some c -> heap w' !! q = Some c) /\
  (forall a, client_addr <$> client <> Some a -> drvdata w' !! a = drvdata w !! a) /\
  exists new,
    devres w' = new ++ devres w /\
    (length new <= 1)%nat /\
    size (heap w') = (size (heap w) + length new)%nat.
Proof.
  intros Hp. destruct (probe_state_cases env client w w' r Hp)
    as [[_ Hst] | (cl & -> & Hst)].
  - apply driver_state_fields in Hst. destruct Hst as (-> & -> & _ & ->).
    split; [intros q c H; exact H|]. split; [reflexivity|].
    exists []. simpl. split; [reflexivity|]. split; [lia|]. lia.
  - apply registered_state_fields in Hst. simpl in Hst.
    destruct Hst as (Hh & Hd & _ & Hdd).
    pose proof (fresh_chip_free w) as Hfree.
    split.
    { intros q c Hq. rewrite Hh, lookup_insert_ne; [exact Hq|].
      intros Heq. rewrite Heq, Hq in Hfree. discriminate. }
    split.
    { intros a Ha. rewrite Hdd, lookup_insert_ne; [reflexivity|].
      intros Heq. apply Ha. simpl. rewrite Heq. reflexivity. }
    exists [(client_addr cl, fresh (dom (heap w)))].
    split; [exact Hd|]. split; [simpl; lia|].
    rewrite Hh, map_size_insert_None by exact Hfree. simpl. lia.
Qed.

(** What a run of probe writes to the kernel log. *)
Lemma probe_log_run (env : Env) (client : option i2c_client) (w : World) :
  exists r w' msgs lvl fmt,
    fusb30x_probe func matches env client w = Some (r, w') /\
    dmesg w' = dmesg w ++ msgs /\
    existsb (fun m => is_error_level (fst m)) msgs = negb (r =? 0)%Z /\
    last msgs = Some (lvl, fmt) /\
    is_error_level lvl = negb (r =? 0)%Z.
Proof.
  destruct client as [cl|].
  2:{ unfold_driver; simpl. do 5 eexists. split; [reflexivity|]. simpl.
      split; [reflexivity|]. repeat split; reflexivity. }
  destruct (existsb (fun s => existsb (String.eqb s) matches)
              (client_of_compatible cl)) eqn:Hdt.
  2:{ unfold_driver; simpl. rewrite Hdt; simpl. do 5 eexists.
      split; [reflexivity|]. simpl. rewrite <- !app_assoc.
      split; [reflexivity|]. repeat split; reflexivity. }
  destruct (Z.land func (adapter_functionality (client_adapter cl)) =? func)%Z eqn:Hfn.
  2:{ unfold_driver; simpl. rewrite Hdt; simpl. rewrite Hfn; simpl. do 5 eexists.
      split; [reflexivity|]. simpl. rewrite <- !app_assoc.
      split; [reflexivity|]. repeat split; reflexivity. }
  destruct (env_kzalloc_ok env) eqn:Hal.
  2:{ unfold_driver; simpl. rewrite Hdt; simpl. rewrite Hfn; simpl.
      rewrite Hal; simpl. do 5 eexists.
      split; [reflexivity|]. simpl. rewrite <- !app_assoc.
      split; [reflexivity|]. repeat split; reflexivity. }
  destruct (env_device_valid env) eqn:Hid.
  2:{ unfold_driver; simpl. rewrite Hdt; simpl. rewrite Hfn; simpl.
      rewrite Hal; simpl. rewrite !lookup_insert_eq; simpl.
      rewrite !lookup_insert_eq; simpl. rewrite Hid; simpl. do 5 eexists.
      split; [reflexivity|]. simpl. rewrite <- !app_assoc.
      split; [reflexivity|]. repeat split; reflexivity. }
  destruct (env_gpio_ret env =? 0)%Z eqn:Hgp.
  2:{ unfold_driver; simpl. rewrite Hdt; simpl. rewrite Hfn; simpl.
      rewrite Hal; simpl. rewrite !lookup_insert_eq; simpl.
      rewrite !lookup_insert_eq; simpl. rewrite Hid; simpl. rewrite Hgp; simpl.
      do 5 eexists. split; [reflexivity|]. simpl. rewrite <- !app_assoc.
      split; [reflexivity|]. rewrite Hgp. repeat split; reflexivity. }
  unfold_driver; simpl. rewrite Hdt; simpl. rewrite Hfn; simpl.
  rewrite Hal; simpl. rewrite !lookup_insert_eq; simpl.
  rewrite !lookup_insert_eq; simpl. rewrite Hid; simpl. rewrite Hgp; simpl.
  do 5 eexists. split; [reflexivity|]. simpl. rewrite <- !app_assoc.
  split; [reflexivity|]. rewrite Hgp. repeat split; reflexivity.
Qed.

(** X6.  A failing probe is never silent and a successful one never cries
    wolf: the messages probe adds to the kernel log contain one at error
    level (KERN_ERR or KERN_ALERT) exactly when the return value is not 0,
    and the last message it logs is at error level exactly then. *)
Theorem probe_logs_error_iff_failure
    (env : Env) (client : option i2c_client) (w w' : World) (r : Z) :
  fusb30x_probe func matches env client w = Some (r, w') ->
  exists msgs lvl fmt,
    dmesg w' = dmesg w ++ msgs /\
    (existsb (fun m => is_error_level (fst m)) msgs = true <-> r <> 0%Z) /\
    last msgs = Some (lvl, fmt) /\
    (is_error_level lvl = true <-> r <> 0%Z).
Proof.
  intros Hp.
  destruct (probe_log_run env client w)
    as (r0 & w0 & msgs & lvl & fmt & Hrun & Hd & He & Hl & Hlv).
  rewrite Hrun in Hp. injection Hp as -> ->.
  exists msgs, lvl, fmt. split; [exact Hd|].
  assert (Hnz : negb (r =? 0)%Z = true <-> r <> 0%Z).
  { rewrite negb_true_iff. apply Z.eqb_neq. }
  rewrite He, Hlv. repeat split; try exact Hl; apply Hnz.
Qed.

(** X7.  What probe returns and which calls it makes depend on the client
    and on the answers of its collaborators only, never on the world: probe
    does not look at the global chip pointer, at existing driver data or at
    earlier allocations before it acts. *)
Theorem probe_result_independent_of_world
    (env : Env) (client : option i2c_client) (w1 w2 : World) :
  exists r tr w1' w2',
    fusb30x_probe func matches env client w1 = Some (r, w1') /\
    fusb30x_probe func matches env client w2 = Some (r, w2') /\
    calls w1' = calls w1 ++ tr /\
    calls w2' = calls w2 ++ tr.
Proof.
  destruct (probe_run func matches env client w1) as (r1 & w1' & Hrun1 & Hout1).
  destruct (probe_run func matches env client w2) as (r2 & w2' & Hrun2 & Hout2).
  destruct (first_failure func matches env client) as [cause|].
  - destruct Hout1 as (-> & _ & Hc1 & _). destruct Hout2 as (-> & _ & Hc2 & _).
    eexists _, _, w1', w2'. repeat split; eassumption.
  - destruct Hout1 as (-> & Hc1 & _). destruct Hout2 as (-> & Hc2 & _).
    eexists _, _, w1', w2'. repeat split; eassumption.
Qed.

(** X8.  In every run of probe, successful or not, each platform helper is
    called only after the chip structure has been made the global chip (the
    helpers take no argument and find it there) and after its lock has been
    initialised. *)
Theorem probe_helpers_run_on_registered_chip
    (env : Env) (client : option i2c_client) (w w' : World) (r : Z) :
  fusb30x_probe func matches env client w = Some (r, w') ->
  exists tr,
    calls w' = calls w ++ tr /\
    forallb (fun h => implb (is_platform_helper h)
                        (called_before E_fusb30x_SetChip h tr &&
                         called_before E_mutex_init h tr)) tr = true.
Proof.
  intros Hp. destruct (probe_run func matches env client w) as (r0 & w0 & Hrun & Hout).
  rewrite Hrun in Hp. injection Hp as -> ->.
  destruct (first_failure func matches env client) as [cause|].
  - destruct Hout as (_ & _ & Hc & _). eexists. split; [exact Hc|].
    destruct cause; reflexivity.
  - destruct Hout as (_ & Hc & _). eexists. split; [exact Hc|]. reflexivity.
Qed.

(** X9.  The allocator is asked for a chip structure exactly when the client
    is not NULL and both validations pass, and the device is asked for its
    identity over the bus exactly when, in addition, the allocation
    succeeded. *)
Theorem probe_allocates_only_after_validation
    (env : Env) (client : option i2c_client) (w w' : World) (r : Z) :
  fusb30x_probe func matches env client w = Some (r, w') ->
  exists tr,
    calls w' = calls w ++ tr /\
    (call_index E_devm_kzalloc tr <> None <->
     exists cl, client = Some cl /\
       dt_matched matches cl = true /\ bus_capable func cl = true) /\
    (call_index E_fusb_IsDeviceValid tr <> None <->
     exists cl, client = Some cl /\
       dt_matched matches cl = true /\ bus_capable func cl = true /\
       env_kzalloc_ok env = true).
Proof.
  intros Hp. destruct (probe_run func matches env client w) as (r0 & w0 & Hrun & Hout).
  rewrite Hrun in Hp. injection Hp as -> ->.
  unfold first_failure, dt_matched, bus_capable in *.
  destruct client as [cl|].
  2:{ destruct Hout as (_ & _ & Hc & _). eexists. split; [exact Hc|].
      split; (split; [intros H; contradiction H; reflexivity
                     | intros (cl & Hcl & _); discriminate Hcl]). }
  destruct (existsb _ (client_of_compatible cl)) eqn:Hdt; simpl in Hout.
  2:{ destruct Hout as (_ & _ & Hc & _). eexists. split; [exact Hc|].
      split; (split; [intros H; contradiction H; reflexivity
                     | intros (cl' & Hcl & Hdt' & _); injection Hcl as <-;
                       rewrite Hdt in Hdt'; discriminate Hdt']). }
  destruct (Z.land func _ =? func)%Z eqn:Hfn; simpl in Hout.
  2:{ destruct Hout as (_ & _ & Hc & _). eexists. split; [exact Hc|].
      split.
      - split; [intros H; contradiction H; reflexivity
               | intros (cl' & Hcl & _ & Hfn'); injection Hcl as <-;
                 rewrite Hfn in Hfn'; discriminate Hfn'].
      - split; [intros H; contradiction H; reflexivity
               | intros (cl' & Hcl & _ & Hfn' & _); injection Hcl as <-;
                 rewrite Hfn in Hfn'; discriminate Hfn']. }
  destruct (env_kzalloc_ok env) eqn:Hal; simpl in Hout.
  2:{ destruct Hout as (_ & _ & Hc & _). eexists. split; [exact Hc|]. split.
      - split; [intros _; exists cl; repeat split; assumption | intros _; discriminate].
      - split; [intros H; contradiction H; reflexivity
               | intros (cl' & _ & _ & _ & Hal'); discriminate Hal']. }
  assert (Hyes : exists tr, calls w' = calls w ++ tr /\
                   call_index E_devm_kzalloc tr <> None /\
                   call_index E_fusb_IsDeviceValid tr <> None).
  { destruct (env_device_valid env); simpl in Hout;
      [destruct (env_gpio_ret env =? 0)%Z; simpl in Hout|].
    - destruct Hout as (_ & Hc & _). eexists. split; [exact Hc|].
      split; discriminate.
    - destruct Hout as (_ & _ & Hc & _). eexists. split; [exact Hc|].
      split; discriminate.
    - destruct Hout as (_ & _ & Hc & _). eexists. split; [exact Hc|].
      split; discriminate. }
  destruct Hyes as (tr & Hc & Hk & Hv). exists tr. split; [exact Hc|].
  split; (split; [intros _; exists cl; repeat split; assumption | intros _; assumption]).
Qed.

(** X10.  Detach after a successful attach undoes, in reverse order, the
    three initialisations it has a teardown call for: GPIO, workers and timer
    were initialised in this order, and timer, workers and GPIO are torn down
    in this order. *)
Theorem remove_undoes_in_reverse
    (env : Env) (t : Teardown) (client : option i2c_client) (cl : i2c_client)
    (w w1 : World) :
  fusb30x_probe func matches env client w = Some (0%Z, w1) ->
  exists w2 attach_tr detach_tr,
    fusb30x_remove t (Some cl) w1 = Some (0%Z, w2) /\
    calls w2 = calls w ++ attach_tr ++ detach_tr /\
    List.filter has_teardown attach_tr
    = [E_fusb_InitializeGPIO; E_fusb_InitializeWorkers; E_fusb_InitializeTimer] /\
    omap undoes detach_tr = rev (List.filter has_teardown attach_tr).
Proof.
  intros Hp. destruct (probe_run func matches env client w) as (r0 & w0 & Hrun & Hout).
  rewrite Hrun in Hp. injection Hp as -> ->.
  destruct (first_failure func matches env client) as [cause|].
  { destruct Hout as (_ & Hnz & _). contradiction Hnz. reflexivity. }
  destruct Hout as (_ & Hc & _).
  destruct (remove_run t cl w1) as (w2 & Hrem & Hc2 & _).
  exists w2, probe_success_calls, remove_calls.
  split; [exact Hrem|]. split; [rewrite Hc2, Hc, app_assoc; reflexivity|].
  split; reflexivity.
Qed.

Lemma registry_consistent_same_state (w w' : World) :
  driver_state w' = driver_state w ->
  registry_consistent w -> registry_consistent w'.
Proof.
  intros Hst [H1 H2 H3 H4 H5 H6]. apply driver_state_fields in Hst.
  destruct Hst as (Hh & Hd & Hg & Hdd).
  split; rewrite ?Hh, ?Hd, ?Hg, ?Hdd; assumption.
Qed.

Lemma registry_consistent_registered (cl : i2c_client) (w w' : World) :
  driver_state w' = registered_state cl w ->
  registry_consistent w -> registry_consistent w'.
Proof.
  intros Hst [H1 H2 H3 H4 H5 H6]. apply registered_state_fields in Hst.
  simpl in Hst. destruct Hst as (Hh & Hd & Hg & Hdd).
  pose proof (fresh_chip_free w) as Hfree.
  set (p := fresh (dom (heap w))) in *.
  assert (Hlive : forall q c, heap w !! q = Some c -> q <> p).
  { intros q c Hq ->. rewrite Hq in Hfree. discriminate. }
  split; rewrite ?Hh, ?Hd, ?Hg, ?Hdd.
  - intros q [= <-]. rewrite lookup_insert_eq. eexists; split; reflexivity.
  - intros a q Hq. destruct (decide (client_addr cl = a)) as [<-|Hne].
    + rewrite lookup_insert_eq in Hq. injection Hq as <-.
      rewrite lookup_insert_eq. eexists; repeat split; reflexivity.
    + rewrite lookup_insert_ne in Hq by exact Hne.
      destruct (H2 a q Hq) as (c & Hc & Hcl & Hlk).
      rewrite lookup_insert_ne by (symmetry; exact (Hlive q c Hc)).
      exists c. repeat split; assumption.
  - intros a q Hq. apply elem_of_cons in Hq. destruct Hq as [[= -> ->]|Hq].
    + rewrite lookup_insert_eq. eexists; split; reflexivity.
    + destruct (H3 a q Hq) as (c & Hc & Hcl).
      rewrite lookup_insert_ne by (symmetry; exact (Hlive q c Hc)).
      exists c. split; assumption.
  - intros q c Hq. destruct (decide (p = q)) as [<-|Hne].
    + exists (client_addr cl). left.
    + rewrite lookup_insert_ne in Hq by exact Hne.
      destruct (H4 q c Hq) as (a & Ha). exists a. right. exact Ha.
  - rewrite fmap_cons. simpl. apply NoDup_cons. split; [|exact H5].
    intros Hin. apply list_elem_of_fmap in Hin. destruct Hin as ([a q] & Heq & Hin).
    simpl in Heq. subst q. destruct (H3 a p Hin) as (c & Hc & _).
    rewrite Hc in Hfree. discriminate.
  - reflexivity.
Qed.

(** X11.  Probe keeps the registrations consistent with the heap
    ([registry_consistent]).  If, before the call, the global chip pointer
    and all driver data name live, initialised chip structures that belong to
    the right client, the managed allocations are exactly the live
    structures, and the global chip pointer names the newest of them, then
    probe runs to its end and the same holds afterwards, whether it failed
    or not and whichever client it was called for. *)
Theorem probe_keeps_registry_consistent
    (env : Env) (client : option i2c_client) (w : World) :
  registry_consistent w ->
  exists r w',
    fusb30x_probe func matches env client w = Some (r, w') /\
    registry_consistent w'.
Proof.
  intros Hrc. destruct (probe_run func matches env client w) as (r & w' & Hrun & _).
  exists r, w'. split; [exact Hrun|].
  destruct (probe_state_cases env client w w' r Hrun) as [[_ Hst] | (cl & _ & Hst)].
  - exact (registry_consistent_same_state w w' Hst Hrc).
  - exact (registry_consistent_registered cl w w' Hst Hrc).
Qed.

(** X12.  The driver has one global chip pointer for all devices.  When two
    different clients are attached one after the other, each client's driver
    data names its own chip structure, but the global chip pointer, through
    which the platform helpers reach the chip, names only the structure of
    the client attached last. *)
Theorem global_chip_serves_last_client
    (env1 env2 : Env) (cl1 cl2 : i2c_client) (w : World) :
  client_addr cl1 <> client_addr cl2 ->
  first_failure func matches env1 (Some cl1) = None ->
  first_failure func matches env2 (Some cl2) = None ->
  exists w1 w2 p1 p2,
    fusb30x_probe func matches env1 (Some cl1) w = Some (0%Z, w1) /\
    fusb30x_probe func matches env2 (Some cl2) w1 = Some (0%Z, w2) /\
    p1 <> p2 /\
    drvdata w2 !! client_addr cl1 = Some p1 /\
    drvdata w2 !! client_addr cl2 = Some p2 /\
    chip_client <$> heap w2 !! p1 = Some (Some (client_addr cl1)) /\
    chip_client <$> heap w2 !! p2 = Some (Some (client_addr cl2)) /\
    g_chip w2 = Some p2.
Proof.
  intros Hne Hf1 Hf2.
  destruct (probe_run func matches env1 (Some cl1) w) as (r1 & w1 & Hrun1 & Hout1).
  rewrite Hf1 in Hout1. destruct Hout1 as (-> & _ & c1 & [= <-] & Hst1).
  destruct (probe_run func matches env2 (Some cl2) w1) as (r2 & w2 & Hrun2 & Hout2).
  rewrite Hf2 in Hout2. destruct Hout2 as (-> & _ & c2 & [= <-] & Hst2).
  apply registered_state_fields in Hst1, Hst2. simpl in Hst1, Hst2.
  destruct Hst1 as (Hh1 & _ & _ & Hdd1). destruct Hst2 as (Hh2 & _ & Hg2 & Hdd2).
  pose proof (fresh_chip_free w1) as Hfree.
  assert (Hp : fresh (dom (heap w)) <> fresh (dom (heap w1))).
  { intros Heq. rewrite <- Heq, Hh1, lookup_insert_eq in Hfree. discriminate. }
  exists w1, w2, (fresh (dom (heap w))), (fresh (dom (heap w1))).
  split; [exact Hrun1|]. split; [exact Hrun2|]. split; [exact Hp|].
  split.
  { rewrite Hdd2, lookup_insert_ne by (symmetry; exact Hne).
    rewrite Hdd1. apply lookup_insert_eq. }
  split; [rewrite Hdd2; apply lookup_insert_eq|].
  split.
  { rewrite Hh2, lookup_insert_ne by (symmetry; exact Hp).
    rewrite Hh1, lookup_insert_eq. reflexivity. }
  split; [rewrite Hh2, lookup_insert_eq; reflexivity | exact Hg2].
Qed.

End AttachFurther.

(** ** The further properties at concrete inputs *)

(** The attached world is consistent, and none of the six conditions holds
    there for want of a registration: the FUSB302 client's chip structure is
    live at address 1 and named by the global chip pointer, by the client's
    driver data and by the one managed allocation. *)
Lemma world_attached_registry_consistent : registry_consistent world_attached.
Proof.
  pose (c := {| chip_lock := MutexUnlocked; chip_client := Some 0x22%N |}).
  assert (Hc : heap world_attached !! 1%positive = Some c) by (vm_compute; reflexivity).
  split; simpl.
  - intros p [= <-]. exists c. split; [exact Hc | reflexivity].
  - intros a p H. apply lookup_singleton_Some in H. destruct H as [<- <-].
    exists c. split; [exact Hc | split; reflexivity].
  - intros a p H. apply list_elem_of_singleton in H. injection H as -> ->.
    exists c. split; [exact Hc | reflexivity].
  - intros p c' H. apply lookup_singleton_Some in H. destruct H as [<- _].
    exists 0x22%N. left.
  - apply NoDup_singleton.
  - reflexivity.
Defined.

Lemma probe_succeeds_iff_all_checks_pass_witness :
  fusb30x_probe sample_required_func sample_dt_match env_ok
    (Some fusb302_client) world0 = Some (0%Z, world_attached) /\
  (0%Z = 0%Z <->
   exists cl, Some fusb302_client = Some cl /\
     dt_matched sample_dt_match cl = true /\
     bus_capable sample_required_func cl = true /\
     env_kzalloc_ok env_ok = true /\ env_device_valid env_ok = true /\
     env_gpio_ret env_ok = 0%Z).
Proof.
  assert (Hrun : fusb30x_probe sample_required_func sample_dt_match env_ok
                   (Some fusb302_client) world0 = Some (0%Z, world_attached))
    by (vm_compute; reflexivity).
  split; [exact Hrun|].
  exact (probe_succeeds_iff_all_checks_pass sample_required_func sample_dt_match
           env_ok (Some fusb302_client) world0 world_attached 0%Z Hrun).
Defined.

Lemma probe_return_values_witness :
  fusb30x_probe sample_required_func sample_dt_match env_gpio_busy
    (Some fusb302_client) world0 = Some ((-16)%Z, world_gpio_failed) /\
  ((-16 = 0 \/ -16 = - EINVAL \/ -16 = - EIO \/ -16 = - ENOMEM \/
    (-16 = env_gpio_ret env_gpio_busy /\ -16 <> 0))%Z /\
   ((env_gpio_ret env_gpio_busy <= 0)%Z -> (-16 <= 0)%Z)).
Proof.
  assert (Hrun : fusb30x_probe sample_required_func sample_dt_match env_gpio_busy
                   (Some fusb302_client) world0 = Some ((-16)%Z, world_gpio_failed))
    by (vm_compute; reflexivity).
  split; [exact Hrun|].
  exact (probe_return_values sample_required_func sample_dt_match
           env_gpio_busy (Some fusb302_client) world0 world_gpio_failed (-16)%Z Hrun).
Defined.

Lemma probe_success_registers_chip_witness :
  fusb30x_probe sample_required_func sample_dt_match env_ok
    (Some fusb302_client) world0 = Some (0%Z, world_attached) /\
  exists cl p,
    Some fusb302_client = Some cl /\
    heap world0 !! p = None /\
    heap world_attached !! p
    = Some {| chip_lock := MutexUnlocked; chip_client := Some (client_addr cl) |} /\
    g_chip world_attached = Some p /\
    drvdata world_attached !! client_addr cl = Some p /\
    devres world_attached = (client_addr cl, p) :: devres world0.
Proof.
  assert (Hrun : fusb30x_probe sample_required_func sample_dt_match env_ok
                   (Some fusb302_client) world0 = Some (0%Z, world_attached))
    by (vm_compute; reflexivity).
  split; [exact Hrun|].
  exact (probe_success_registers_chip sample_required_func sample_dt_match
           env_ok (Some fusb302_client) world0 world_attached Hrun).
Defined.

Lemma probe_frame_witness :
  fusb30x_probe sample_required_func sample_dt_match env_gpio_busy
    (Some fusb302_client) world0 = Some ((-16)%Z, world_gpio_failed) /\
  (forall q c, heap world0 !! q = Some c -> heap world_gpio_failed !! q = Some c) /\
  (forall a, client_addr <$> Some fusb302_client <> Some a ->
             drvdata world_gpio_failed !! a = drvdata world0 !! a) /\
  exists new,
    devres world_gpio_failed = new ++ devres world0 /\
    (length new <= 1)%nat /\
    size (heap world_gpio_failed) = (size (heap world0) + length new)%nat.
Proof.
  assert (Hrun : fusb30x_probe sample_required_func sample_dt_match env_gpio_busy
                   (Some fusb302_client) world0 = Some ((-16)%Z, world_gpio_failed))
    by (vm_compute; reflexivity).
  split; [exact Hrun|].
  exact (probe_frame sample_required_func sample_dt_match
           env_gpio_busy (Some fusb302_client) world0 world_gpio_failed (-16)%Z Hrun).
Defined.

Lemma probe_logs_error_iff_failure_witness :
  fusb30x_probe sample_required_func sample_dt_match env_gpio_busy
    (Some fusb302_client) world0 = Some ((-16)%Z, world_gpio_failed) /\
  exists msgs lvl fmt,
    dmesg world_gpio_failed = dmesg world0 ++ msgs /\
    (existsb (fun m => is_error_level (fst m)) msgs = true <-> (-16)%Z <> 0%Z) /\
    last msgs = Some (lvl, fmt) /\
    (is_error_level lvl = true <-> (-16)%Z <> 0%Z).
Proof.
  assert (Hrun : fusb30x_probe sample_required_func sample_dt_match env_gpio_busy
                   (Some fusb302_client) world0 = Some ((-16)%Z, world_gpio_failed))
    by (vm_compute; reflexivity).
  split; [exact Hrun|].
  exact (probe_logs_error_iff_failure sample_required_func sample_dt_match
           env_gpio_busy (Some fusb302_client) world0 world_gpio_failed (-16)%Z Hrun).
Defined.

Lemma probe_helpers_run_on_registered_chip_witness :
  fusb30x_probe sample_required_func sample_dt_match env_ok
    (Some fusb302_client) world0 = Some (0%Z, world_attached) /\
  exists tr,
    calls world_attached = calls world0 ++ tr /\
    forallb (fun h => implb (is_platform_helper h)
                        (called_before E_fusb30x_SetChip h tr &&
                         called_before E_mutex_init h tr)) tr = true.
Proof.
  assert (Hrun : fusb30x_probe sample_required_func sample_dt_match env_ok
                   (Some fusb302_client) world0 = Some (0%Z, world_attached))
    by (vm_compute; reflexivity).
  split; [exact Hrun|].
  exact (probe_helpers_run_on_registered_chip sample_required_func sample_dt_match
           env_ok (Some fusb302_client) world0 world_attached 0%Z Hrun).
Defined.

Lemma probe_allocates_only_after_validation_witness :
  fusb30x_probe sample_required_func sample_dt_match env_gpio_busy
    (Some fusb302_client) world0 = Some ((-16)%Z, world_gpio_failed) /\
  exists tr,
    calls world_gpio_failed = calls world0 ++ tr /\
    (call_index E_devm_kzalloc tr <> None <->
     exists cl, Some fusb302_client = Some cl /\
       dt_matched sample_dt_match cl = true /\
       bus_capable sample_required_func cl = true) /\
    (call_index E_fusb_IsDeviceValid tr <> None <->
     exists cl, Some fusb302_client = Some cl /\
       dt_matched sample_dt_match cl = true /\
       bus_capable sample_required_func cl = true /\
       env_kzalloc_ok env_gpio_busy = true).
Proof.
  assert (Hrun : fusb30x_probe sample_required_func sample_dt_match env_gpio_busy
                   (Some fusb302_client) world0 = Some ((-16)%Z, world_gpio_failed))
    by (vm_compute; reflexivity).
  split; [exact Hrun|].
  exact (probe_allocates_only_after_validation sample_required_func sample_dt_match
           env_gpio_busy (Some fusb302_client) world0 world_gpio_failed (-16)%Z Hrun).
Defined.

Lemma remove_undoes_in_reverse_witness :
  fusb30x_probe sample_required_func sample_dt_match env_ok
    (Some fusb302_client) world0 = Some (0%Z, world_attached) /\
  exists w2 attach_tr detach_tr,
    fusb30x_remove teardown_gpio_stuck (Some fusb302_client) world_attached
    = Some (0%Z, w2) /\
    calls w2 = calls world0 ++ attach_tr ++ detach_tr /\
    List.filter has_teardown attach_tr
    = [E_fusb_InitializeGPIO; E_fusb_InitializeWorkers; E_fusb_InitializeTimer] /\
    omap undoes detach_tr = rev (List.filter has_teardown attach_tr).
Proof.
  assert (Hrun : fusb30x_probe sample_required_func sample_dt_match env_ok
                   (Some fusb302_client) world0 = Some (0%Z, world_attached))
    by (vm_compute; reflexivity).
  split; [exact Hrun|].
  exact (remove_undoes_in_reverse sample_required_func sample_dt_match
           env_ok teardown_gpio_stuck (Some fusb302_client) fusb302_client
           world0 world_attached Hrun).
Defined.

Lemma probe_keeps_registry_consistent_witness :
  registry_consistent world_attached /\
  exists r w',
    fusb30x_probe sample_required_func sample_dt_match env_gpio_busy
      (Some second_fusb302_client) world_attached = Some (r, w') /\
    registry_consistent w'.
Proof.
  split; [exact world_attached_registry_consistent|].
  exact (probe_keeps_registry_consistent sample_required_func sample_dt_match
           env_gpio_busy (Some second_fusb302_client) world_attached
           world_attached_registry_consistent).
Defined.

Lemma global_chip_serves_last_client_witness :
  client_addr fusb302_client <> client_addr second_fusb302_client /\
  first_failure sample_required_func sample_dt_match env_ok
    (Some fusb302_client) = None /\
  first_failure sample_required_func sample_dt_match env_ok
    (Some second_fusb302_client) = None /\
  exists w1 w2 p1 p2,
    fusb30x_probe sample_required_func sample_dt_match env_ok
      (Some fusb302_client) world0 = Some (0%Z, w1) /\
    fusb30x_probe sample_required_func sample_dt_match env_ok
      (Some second_fusb302_client) w1 = Some (0%Z, w2) /\
    p1 <> p2 /\
    drvdata w2 !! client_addr fusb302_client = Some p1 /\
    drvdata w2 !! client_addr second_fusb302_client = Some p2 /\
    chip_client <$> heap w2 !! p1 = Some (Some (client_addr fusb302_client)) /\
    chip_client <$> heap w2 !! p2 = Some (Some (client_addr second_fusb302_client)) /\
    g_chip w2 = Some p2.
Proof.
  assert (Hne : client_addr fusb302_client <> client_addr second_fusb302_client)
    by discriminate.
  assert (Hf1 : first_failure sample_required_func sample_dt_match env_ok
                  (Some fusb302_client) = None) by (vm_compute; reflexivity).
  assert (Hf2 : first_failure sample_required_func sample_dt_match env_ok
                  (Some second_fusb302_client) = None) by (vm_compute; reflexivity).
  split; [exact Hne|]. split; [exact Hf1|]. split; [exact Hf2|].
  exact (global_chip_serves_last_client sample_required_func sample_dt_match
           env_ok env_ok fusb302_client second_fusb302_client world0 Hne Hf1 Hf2).
Defined.

(** Probe in a world whose registrations dangle: it does not follow them,
    and re-points both to the structure it allocates. *)
Example probe_over_dangling_registrations :
  heap world_dangling !! 7%positive = None /\
  exists w',
    fusb30x_probe sample_required_func sample_dt_match env_ok
      (Some fusb302_client) world_dangling = Some (0%Z, w') /\
    g_chip w' = Some 1%positive /\
    drvdata w' !! 0x22%N = Some 1%positive.
Proof.
  split; [vm_compute; reflexivity|].
  eexists. split; [vm_compute; reflexivity|].
  split; vm_compute; reflexivity.
Qed.
